(** * Pharmacokinetic formulas and lookup utilities: a shallow embedding

    Source: [src/pharm/foundational_pharm.py].

    Numbers are Python [float]s, that is IEEE 754 binary64 values: they are
    embedded as Rocq's primitive floats, whose operations round exactly as
    Python's do.  Strings are embedded as [string], the UTF-8 bytes of the
    Python text.  Exceptions are embedded as an [outcome] type, and the two
    functions that read a JSON file run in a small state-and-exception monad
    over an explicit file system, which also has the write the source's unit
    tests use: that no operation writes is a statement, not a convention.

    The range checker reads a document of any JSON shape: a value that is
    [null], a range that is not a list of two numbers, a bound that is an
    integer (which Python compares with a float exactly) are all values of
    [json], and what the code does with each of them is part of the
    embedding.  Its lowercasing is Python's [str.lower], Unicode-aware and
    outside the repository: it is a parameter, [str_lower], of which the
    theorems assume only what they state.

    The interaction checker is embedded at the shape the specification gives
    its file (section 6), an object from strings to strings, and on names
    lowercased by [lower], the restriction of [str.lower] to ASCII text.  What
    [json.load] returns is a Python dictionary whose keys are all strings; the
    dictionaries of the embedding also admit tuple keys, because that is what
    [check_interactions] looks up. *)

From Stdlib Require Import Floats ZArith Ascii String List Permutation Lia.
From stdpp Require Import gmap strings list pretty.

Set Warnings "-inexact-float".

(** ** Python outcomes *)

Module Py.

(** The exceptions the module can raise.  [Exception_] and [ValueError] carry
    the message built by the source's f-strings; the errors the interpreter
    itself raises on a malformed document carry the message CPython 3.12
    gives them. *)
Inductive exn : Type :=
| ZeroDivisionError
| Exception_ (msg : string)
| ValueError (msg : string)
| TypeError (msg : string)
| AttributeError (msg : string).

Inductive outcome (A : Type) : Type :=
| Return (a : A)
| Raise (e : exn).

Arguments Return {A} a.
Arguments Raise {A} e.

Definition outcome_bind {A B : Type} (m : outcome A) (k : A -> outcome B) : outcome B :=
  match m with
  | Return a => k a
  | Raise e => Raise e
  end.

Definition raises {A : Type} (m : outcome A) : bool :=
  match m with
  | Return _ => false
  | Raise _ => true
  end.

(** [a / b] on Python floats: a zero divisor (of either sign) raises, every
    other divisor, [nan] and the infinities included, divides as IEEE 754
    does. *)
Definition truediv (a b : float) : outcome float :=
  if PrimFloat.eqb b 0%float then Raise ZeroDivisionError
  else Return (PrimFloat.div a b).

(** ASCII text: every byte below 128. *)
Fixpoint is_ascii (s : string) : bool :=
  match s with
  | EmptyString => true
  | String c s' => (N_of_ascii c <? 128)%N && is_ascii s'
  end.

(** [str.lower] on ASCII text. *)
Definition is_ascii_upper (c : ascii) : bool :=
  (65 <=? N_of_ascii c)%N && (N_of_ascii c <=? 90)%N.

Definition lower_char (c : ascii) : ascii :=
  if is_ascii_upper c then ascii_of_N (N_of_ascii c + 32) else c.

Fixpoint lower (s : string) : string :=
  match s with
  | EmptyString => EmptyString
  | String c s' => String (lower_char c) (lower s')
  end.

Fixpoint has_upper (s : string) : bool :=
  match s with
  | EmptyString => false
  | String c s' => is_ascii_upper c || has_upper s'
  end.

End Py.

Import Py.

(** ** Pharmacokinetic formulas *)

Section Formulas.

Local Open Scope float_scope.

(** [numpy.exp] on a float; the library is outside the repository. *)
Variable np_exp : float -> float.

Definition elimination_rate_constant (CL Vd : float) : outcome float :=
  truediv CL Vd.

Definition half_life (CL Vd : float) : outcome float :=
  outcome_bind (elimination_rate_constant CL Vd) (fun k_e =>
  truediv 0.693 k_e).

Definition initial_concentration (D Vd : float) : outcome float :=
  truediv D Vd.

Definition plasma_concentration_iv_bolus_single (C_0 k_e t : float) : outcome float :=
  Return (C_0 * np_exp (- k_e * t)).

Definition default_standard_creatinine_clearance : float := 100.0.

Definition adjust_dose_for_kidney_function
    (dose creatinine_clearance standard_creatinine_clearance : float) : outcome float :=
  outcome_bind (truediv creatinine_clearance standard_creatinine_clearance) (fun q =>
  Return (dose * q)).

Definition default_max_score : float := 15.0.

Definition adjust_dose_for_liver_function
    (dose liver_function_score max_score : float) : outcome float :=
  outcome_bind (truediv liver_function_score max_score) (fun q =>
  let adjustment_factor := 1 - q * 0.5 in
  Return (dose * adjustment_factor)).

End Formulas.

(** ** JSON documents *)

(** A JSON value, and the Python value [json.load] makes of it: [None], a
    [bool], an [int] of any size, a [float], a [str], a [list], a [dict]
    whose keys are strings. *)
#[warnings="-register-all"]
Inductive json : Type :=
| JNull
| JBool (b : bool)
| JInt (n : Z)
| JFloat (x : float)
| JStr (s : string)
| JList (l : list json)
| JObject (o : gmap string json).

(** [type(v).__name__]. *)
Definition type_name (v : json) : string :=
  match v with
  | JNull => "NoneType"
  | JBool _ => "bool"
  | JInt _ => "int"
  | JFloat _ => "float"
  | JStr _ => "str"
  | JList _ => "list"
  | JObject _ => "dict"
  end.

(** The code points of a string: each byte that is not a UTF-8 continuation
    byte opens one.  The first component collects continuation bytes that no
    byte opens; it is empty on well-formed text. *)
Definition is_continuation (c : ascii) : bool :=
  (128 <=? N_of_ascii c)%N && (N_of_ascii c <? 192)%N.

Fixpoint split_code_points (s : string) : string * list string :=
  match s with
  | EmptyString => (EmptyString, [])
  | String c s' =>
      let '(pre, pts) := split_code_points s' in
      if is_continuation c then (String c pre, pts)
      else (EmptyString, String c pre :: pts)
  end.

Definition code_points (s : string) : list string := snd (split_code_points s).

(** ** Python numbers and their comparison *)

(** The numbers a document can hold.  A [bool] is an [int] to Python's
    comparisons. *)
Inductive number : Type :=
| NInt (n : Z)
| NFloat (x : float).

Definition as_number (v : json) : option number :=
  match v with
  | JBool b => Some (NInt (Z.b2z b))
  | JInt n => Some (NInt n)
  | JFloat x => Some (NFloat x)
  | _ => None
  end.

(** The value of a number, exactly.  Every finite float is an integer
    multiple of 2^-1074, the smallest positive float, and so is every
    integer: [EFin z] stands for z * 2^-1074. *)
Inductive exact : Type :=
| ENan
| ENegInf
| EFin (z : Z)
| EPosInf.

Definition signed (s : bool) (m : positive) : Z :=
  if s then Z.neg m else Z.pos m.

Definition spec_exact (f : spec_float) : exact :=
  match f with
  | S754_zero _ => EFin 0
  | S754_infinity s => if s then ENegInf else EPosInf
  | S754_nan => ENan
  | S754_finite s m e => EFin (signed s m * 2 ^ (e + 1074))%Z
  end.

Definition float_exact (x : float) : exact := spec_exact (Prim2SF x).

Definition int_exact (n : Z) : exact := EFin (n * 2 ^ 1074)%Z.

Definition number_exact (a : number) : exact :=
  match a with
  | NInt n => int_exact n
  | NFloat x => float_exact x
  end.

(** The order of exact values; a value that is not a number compares with
    nothing. *)
Definition exact_compare (a b : exact) : option comparison :=
  match a, b with
  | ENan, _ | _, ENan => None
  | ENegInf, ENegInf => Some Eq
  | ENegInf, _ => Some Lt
  | _, ENegInf => Some Gt
  | EPosInf, EPosInf => Some Eq
  | EPosInf, _ => Some Gt
  | _, EPosInf => Some Lt
  | EFin x, EFin y => Some (x ?= y)%Z
  end.

Definition exact_le (a b : exact) : bool :=
  match exact_compare a b with
  | Some Lt | Some Eq => true
  | _ => false
  end.

Definition exact_lt (a b : exact) : bool :=
  match exact_compare a b with
  | Some Lt => true
  | _ => false
  end.

(** [a <= b] and [a < b] on two numbers: two floats are compared by the
    processor, and an integer is compared with a float, or with an integer,
    by value, without rounding the integer to a float first. *)
Definition number_le (a b : number) : bool :=
  match a, b with
  | NFloat x, NFloat y => PrimFloat.leb x y
  | _, _ => exact_le (number_exact a) (number_exact b)
  end.

Definition number_lt (a b : number) : bool :=
  match a, b with
  | NFloat x, NFloat y => PrimFloat.ltb x y
  | _, _ => exact_lt (number_exact a) (number_exact b)
  end.

Definition not_supported (a b : string) : exn :=
  TypeError ("'<=' not supported between instances of '" +:+ a +:+ "' and '" +:+ b +:+ "'").

(** [v <= x] and [x <= v] for a loaded value [v] and a float [x]: a value
    that is not a number raises. *)
Definition le_float (v : json) (x : float) : outcome bool :=
  match as_number v with
  | Some a => Return (number_le a (NFloat x))
  | None => Raise (not_supported (type_name v) "float")
  end.

Definition float_le (x : float) (v : json) : outcome bool :=
  match as_number v with
  | Some b => Return (number_le (NFloat x) b)
  | None => Raise (not_supported "float" (type_name v))
  end.

(** [lo <= x <= hi], Python's chained comparison: the second comparison is
    made only when the first holds. *)
Definition chained_le (lo : json) (x : float) (hi : json) : outcome bool :=
  outcome_bind (le_float lo x) (fun b =>
  if b then float_le x hi else Return false).

(** [a, b = v]: a list, a string or a dictionary of two elements unpacks,
    the string into its two characters and the dictionary into its two keys
    (whose order, that of insertion, the embedding does not keep). *)
Definition unpack_error (n : nat) : exn :=
  if (n <? 2)%nat
  then ValueError ("not enough values to unpack (expected 2, got " +:+ pretty n +:+ ")")
  else ValueError "too many values to unpack (expected 2)".

Definition unpack_list (l : list json) : outcome (json * json) :=
  match l with
  | [a; b] => Return (a, b)
  | _ => Raise (unpack_error (length l))
  end.

Definition unpack (v : json) : outcome (json * json) :=
  match v with
  | JList l => unpack_list l
  | JStr s => unpack_list (JStr <$> code_points s)
  | JObject o => unpack_list (JStr <$> (map_to_list o).*1)
  | _ => Raise (TypeError ("cannot unpack non-iterable " +:+ type_name v +:+ " object"))
  end.

(** [d.get(k)]: only a dictionary has the method. *)
Definition dict_get (d : json) (k : string) : outcome json :=
  match d with
  | JObject o => Return (default JNull (o !! k))
  | _ => Raise (AttributeError ("'" +:+ type_name d +:+ "' object has no attribute 'get'"))
  end.

(** ** The file system and the monad of the two lookup functions *)

(** A file system maps a path to the parsed content of the JSON document
    stored there; [D] is the type of the documents: [json] for the range
    checker, an object from strings to strings (section 6 of the
    specification) for the interaction checker. *)
Record world (D : Type) : Type := World { files : gmap string D }.

Arguments World {D} files.
Arguments files {D} w.

(** A Python computation: it runs in a world, returns or raises, and leaves a
    world behind. *)
Definition prog (D A : Type) : Type := world D -> outcome A * world D.

#[export] Instance prog_ret {D : Type} : MRet (prog D) :=
  fun A (a : A) w => (Return a, w).

#[export] Instance prog_bind {D : Type} : MBind (prog D) :=
  fun A B (k : A -> prog D B) (m : prog D A) w =>
    match m w with
    | (Return a, w') => k a w'
    | (Raise e, w') => (Raise e, w')
    end.

Definition raise {D A : Type} (e : exn) : prog D A :=
  fun w => (Raise e, w).

(** A step that touches no file. *)
Definition lift {D A : Type} (r : outcome A) : prog D A :=
  fun w => (r, w).

Definition database_not_found (db_file : string) : exn :=
  Exception_ ("Database file '" +:+ db_file +:+ "' not found.").

(** [try: with open(db_file, 'r') as f: ... = json.load(f)
     except FileNotFoundError: raise Exception(...)]. *)
Definition json_load_file {D : Type} (db_file : string) : prog D D :=
  fun w =>
    match files w !! db_file with
    | Some doc => (Return doc, w)
    | None => (Raise (database_not_found db_file), w)
    end.

(** [with open(db_file, 'w') as f: json.dump(doc, f)], the write of the
    source's unit tests (lines 217-218 and 225-226). *)
Definition json_dump_file {D : Type} (db_file : string) (doc : D) : prog D unit :=
  fun w => (Return tt, World (<[db_file := doc]> (files w))).

(** ** Python dictionaries *)

(** The keys the module uses: strings (every key that [json.load] produces)
    and tuples of strings (the key [check_interactions] builds). *)
Inductive key : Type :=
| KStr (s : string)
| KTuple (t : list string).

#[export] Instance key_eq_dec : EqDecision key.
Proof. solve_decision. Defined.

Definition key_to_sum (k : key) : string + list string :=
  match k with
  | KStr s => inl s
  | KTuple t => inr t
  end.

Definition key_of_sum (x : string + list string) : key :=
  match x with
  | inl s => KStr s
  | inr t => KTuple t
  end.

#[export] Instance key_countable : Countable key.
Proof.
  refine (inj_countable' key_to_sum key_of_sum _).
  intros []; reflexivity.
Defined.

#[export] Instance KStr_inj : Inj (=) (=) KStr.
Proof. intros s1 s2 H. injection H as ->. reflexivity. Qed.

(** The dictionary [json.load] builds from a JSON object: every key is a
    string. *)
Definition json_object_to_dict {V : Type} (doc : gmap string V) : gmap key V :=
  kmap KStr doc.

(** ** Therapeutic range checker *)

Definition range_not_found (drug_name : string) : exn :=
  ValueError ("Therapeutic range for drug '" +:+ drug_name +:+ "' not found in database.").

Section RangeChecker.

(** [str.lower], Python's lowercasing of a string; it is Unicode-aware and
    lies outside the repository. *)
Variable str_lower : string -> string.

Definition is_within_therapeutic_range {P : Type}
    (concentration : float) (drug_name : string) (patient_data : P)
    (db_file : string) : prog json bool :=
  therapeutic_ranges ← json_load_file db_file;
  range_data ← lift (dict_get therapeutic_ranges (str_lower drug_name));
  match range_data with
  | JNull => raise (range_not_found drug_name)
  | _ =>
      '(lower_, upper) ← lift (unpack range_data);
      lift (chained_le lower_ concentration upper)
  end.

End RangeChecker.

Definition default_ranges_file : string := "therapeutic_ranges.json".

(** ** Interaction checker *)

(** [sorted] on a list of strings: a stable insertion sort by code point
    order. *)
Fixpoint insert_sorted (x : string) (l : list string) : list string :=
  match l with
  | [] => [x]
  | y :: l' => if String.ltb x y then x :: y :: l' else y :: insert_sorted x l'
  end.

Definition sorted (l : list string) : list string :=
  foldl (fun acc x => insert_sorted x acc) [] l.

(** [tuple(sorted([a.lower(), b.lower()]))]. *)
Definition pair_key (a b : string) : key :=
  KTuple (sorted [lower a; lower b]).

Definition interaction_message (a b text : string) : string :=
  "Interaction between " +:+ a +:+ " and " +:+ b +:+ ": " +:+ text.

Section Scan.

(** The double loop of [check_interactions], with what is appended on a hit
    left open: [check_interactions] appends the formatted message, and
    [interaction_hits] the two names and the text themselves. *)
Context {R : Type} (emit : string -> string -> string -> R).

Definition scan_step (interaction_pairs : gmap key string) (drug_list : list string)
    (i j : nat) (interactions : list R) : list R :=
  match drug_list !! i, drug_list !! j with
  | Some a, Some b =>
      match interaction_pairs !! pair_key a b with
      | Some text => interactions ++ [emit a b text]
      | None => interactions
      end
  | _, _ => interactions
  end.

Definition scan_pairs (interaction_pairs : gmap key string) (drug_list : list string) : list R :=
  foldl (fun interactions i =>
           foldl (fun interactions j => scan_step interaction_pairs drug_list i j interactions)
                 interactions
                 (seq (i + 1) (length drug_list - (i + 1))))
        []
        (seq 0 (length drug_list)).

End Scan.

Definition interactions_among (interaction_pairs : gmap key string)
    (drug_list : list string) : list string :=
  scan_pairs interaction_message interaction_pairs drug_list.

Definition check_interactions (drug_list : list string) (db_file : string)
    : prog (gmap string string) (list string) :=
  doc ← json_load_file db_file;
  let interaction_pairs := json_object_to_dict doc in
  mret (interactions_among interaction_pairs drug_list).

Definition default_interactions_file : string := "drug_interactions.json".

(** The hits of the double loop, unformatted: first name, second name, text. *)
Definition interaction_hits (interaction_pairs : gmap key string)
    (drug_list : list string) : list (string * string * string) :=
  scan_pairs (fun a b text => (a, b, text)) interaction_pairs drug_list.

(** The unordered pair of names [a], [b] is found: the loop hit on it, with
    the two names in either order. *)
Definition same_pair (a b : string) (h : string * string * string) : bool :=
  let '(x, y, _) := h in
  (String.eqb x a && String.eqb y b) || (String.eqb x b && String.eqb y a).

Definition pair_found (interaction_pairs : gmap key string) (drug_list : list string)
    (a b : string) : bool :=
  existsb (same_pair a b) (interaction_hits interaction_pairs drug_list).

(** What one iteration of the inner loop body appends. *)
Definition hit_at {R : Type} (emit : string -> string -> string -> R)
    (interaction_pairs : gmap key string) (drug_list : list string)
    (i j : nat) : list R :=
  match drug_list !! i, drug_list !! j with
  | Some a, Some b =>
      match interaction_pairs !! pair_key a b with
      | Some text => [emit a b text]
      | None => []
      end
  | _, _ => []
  end.

(** ** The operations of the module, as calls *)

(** One call of one of the eight functions, with its arguments. *)
Inductive call : Type :=
| Call_elimination_rate_constant (CL Vd : float)
| Call_half_life (CL Vd : float)
| Call_initial_concentration (D Vd : float)
| Call_plasma_concentration_iv_bolus_single (C_0 k_e t : float)
| Call_adjust_dose_for_kidney_function (dose creatinine_clearance standard : float)
| Call_adjust_dose_for_liver_function (dose liver_function_score max_score : float)
| Call_is_within_therapeutic_range (concentration : float) (drug_name : string)
    (P : Type) (patient_data : P) (db_file : string)
| Call_check_interactions (drug_list : list string) (db_file : string).

(** What a call returns. *)
Inductive result : Type :=
| RFloat (x : float)
| RBool (b : bool)
| RList (l : list string).

Definition outcome_map {A B : Type} (f : A -> B) (m : outcome A) : outcome B :=
  outcome_bind m (fun a => Return (f a)).

(** The files the two checkers read: range tables and interaction tables. *)
Record store : Type := Store {
  range_files : world json;
  interaction_files : world (gmap string string)
}.

Section Calls.

Variable np_exp : float -> float.
Variable str_lower : string -> string.

Definition run (c : call) (s : store) : outcome result * store :=
  match c with
  | Call_elimination_rate_constant CL Vd =>
      (outcome_map RFloat (elimination_rate_constant CL Vd), s)
  | Call_half_life CL Vd =>
      (outcome_map RFloat (half_life CL Vd), s)
  | Call_initial_concentration D Vd =>
      (outcome_map RFloat (initial_concentration D Vd), s)
  | Call_plasma_concentration_iv_bolus_single C_0 k_e t =>
      (outcome_map RFloat (plasma_concentration_iv_bolus_single np_exp C_0 k_e t), s)
  | Call_adjust_dose_for_kidney_function dose clcr standard =>
      (outcome_map RFloat (adjust_dose_for_kidney_function dose clcr standard), s)
  | Call_adjust_dose_for_liver_function dose score max_score =>
      (outcome_map RFloat (adjust_dose_for_liver_function dose score max_score), s)
  | Call_is_within_therapeutic_range c name P pd db_file =>
      let '(r, w) := is_within_therapeutic_range str_lower c name pd db_file (range_files s) in
      (outcome_map RBool r, Store w (interaction_files s))
  | Call_check_interactions l db_file =>
      let '(r, w) := check_interactions l db_file (interaction_files s) in
      (outcome_map RList r, Store (range_files s) w)
  end.

(** The store a sequence of calls leaves behind. *)
Definition run_all (cs : list call) (s : store) : store :=
  foldl (fun s c => snd (run c s)) s cs.

End Calls.

(** The file a call names, and its content in a store. *)
Definition file_read (c : call) (s : store) : option (json + gmap string string) :=
  match c with
  | Call_is_within_therapeutic_range _ _ _ _ db_file =>
      inl <$> files (range_files s) !! db_file
  | Call_check_interactions _ db_file =>
      inr <$> files (interaction_files s) !! db_file
  | _ => None
  end.

(** ** Range tables of the specified shape *)




(** ** Classes of floats *)

Inductive float_class : Type := FZero | FFinite | FInfinite | FNan.

(** [FFinite] is finite and nonzero (normal or subnormal). *)
Definition class_of (x : float) : float_class :=
  match Prim2SF x with
  | S754_zero _ => FZero
  | S754_finite _ _ _ => FFinite
  | S754_infinity _ => FInfinite
  | S754_nan => FNan
  end.

(** ** Fixtures of the source's unit tests *)

(** [json.dump({"drug_a": [5.0, 15.0]}, f)] on [therapeutic_ranges.json]. *)
Definition test_ranges : json :=
  JObject {[ "drug_a" := JList [JFloat 5.0; JFloat 15.0] ]}.

Definition test_ranges_world : world json :=
  World {[ default_ranges_file := test_ranges ]}.

(** [json.dump({"drug_a,drug_b": "Increased risk of toxicity"}, f)] on
    [drug_interactions.json]. *)
Definition test_interactions_world : world (gmap string string) :=
  World {[ default_interactions_file :=
             {[ "drug_a,drug_b" := "Increased risk of toxicity" ]} ]}.

(** A world with no file at all. *)
Definition empty_world {D : Type} : world D := World ∅.

(** A range table that stores the same drug under a mixed-case and under a
    lowercase key. *)
Definition mixed_case_ranges : gmap string json :=
  {[ "Drug_A" := JList [JFloat 5.0; JFloat 15.0];
     "drug_a" := JList [JFloat 5.0; JFloat 15.0] ]}.

Definition mixed_case_world : world json :=
  World {[ default_ranges_file := JObject mixed_case_ranges ]}.

(** A range table whose only key is mixed-case. *)
Definition upper_only_world : world json :=
  World {[ default_ranges_file :=
             JObject {[ "Drug_A" := JList [JFloat 5.0; JFloat 15.0] ]} ]}.


(** A Python dictionary keyed by sorted tuples, as the loop looks keys up. *)
Definition tuple_table : gmap key string :=
  {[ KTuple ["drug_a"; "drug_b"] := "Increased risk of toxicity";
     KTuple ["drug_a"; "drug_a"] := "Duplicate therapy" ]}.

(** ** Auxiliary notions for the interaction loop *)

(** What the drug [x] contributes when it stands before the drugs [l]: one
    element for each later drug whose key with [x] is in the dictionary, in
    the order of [l]. *)
Definition hits_with {R : Type} (emit : string -> string -> string -> R)
    (interaction_pairs : gmap key string) (x : string) (l : list string) : list R :=
  l ≫= (fun y => match interaction_pairs !! pair_key x y with
                 | Some text => [emit x y text]
                 | None => []
                 end).

(** The texts of the hits, in the order of the loop. *)
Definition hit_texts (interaction_pairs : gmap key string) (drug_list : list string)
    : list string :=
  scan_pairs (fun _ _ text => text) interaction_pairs drug_list.

(** The keys the loop can form: tuples of two strings without an uppercase
    letter, the second not below the first. *)
Definition formable_key (k : key) : bool :=
  match k with
  | KTuple [x; y] => negb (has_upper x) && negb (has_upper y) && negb (String.ltb y x)
  | _ => false
  end.

(** What the range checker makes of a loaded document: the steps of
    [is_within_therapeutic_range] that follow the reading of the file, with
    [key] the lowercased name. *)
Definition range_outcome (drug_name key : string) (concentration : float) (doc : json)
    : outcome bool :=
  outcome_bind (dict_get doc key) (fun range_data =>
  match range_data with
  | JNull => Raise (range_not_found drug_name)
  | _ =>
      outcome_bind (unpack range_data) (fun '(lower_, upper) =>
      chained_le lower_ concentration upper)
  end).

(** The errors the interpreter raises on a document that is not a range
    table. *)
Definition is_interpreter_error (e : exn) : bool :=
  match e with
  | ValueError _ | TypeError _ | AttributeError _ => true
  | _ => false
  end.

(** ** Further fixtures *)

(** A range whose upper bound is not a number. *)
Definition nan_range_world : world json :=
  World {[ default_ranges_file := JObject {[ "drug_a" := JList [JFloat 5.0; JFloat nan] ]} ]}.

(** A range stored with its bounds swapped. *)
Definition inverted_range_world : world json :=
  World {[ default_ranges_file := JObject {[ "drug_a" := JList [JFloat 15.0; JFloat 5.0] ]} ]}.

(** A range whose bounds are integers, the lower one too large for a float
    to hold: 2^53 + 1. *)
Definition integer_range_world : world json :=
  World {[ default_ranges_file :=
             JObject {[ "drug_a" := JList [JInt 9007199254740993; JInt 9007199254740995] ]} ]}.

(** Documents that are not range tables: an entry that is [null], ranges of
    one and of three bounds, a bound that is a string, a document that is a
    list. *)
Definition malformed_ranges : json :=
  JObject {[ "drug_a" := JNull;
             "drug_b" := JList [JFloat 5.0];
             "drug_c" := JList [JFloat 5.0; JFloat 15.0; JFloat 25.0];
             "drug_d" := JList [JFloat 5.0; JStr "15.0"];
             "drug_e" := JStr "ab";
             "drug_f" := JInt 5 ]}.

Definition malformed_world : world json :=
  World {[ default_ranges_file := malformed_ranges ]}.

Definition list_document_world : world json :=
  World {[ default_ranges_file := JList [JStr "drug_a"] ]}.

(** * Properties *)

(** ** Unit tests of the source, as computations *)

Example test_elimination_rate_constant :
  elimination_rate_constant 5.0 50.0 = Return 0.1%float.
Proof. reflexivity. Qed.

Example test_half_life :
  half_life 5.0 50.0 = Return 6.9299999999999988%float.
Proof. reflexivity. Qed.

Example test_initial_concentration :
  initial_concentration 500.0 50.0 = Return 10.0%float.
Proof. reflexivity. Qed.

Example test_adjust_dose_for_kidney_function :
  adjust_dose_for_kidney_function 100.0 50.0 default_standard_creatinine_clearance
  = Return 50.0%float.
Proof. reflexivity. Qed.

Example test_adjust_dose_for_liver_function :
  adjust_dose_for_liver_function 100.0 7.5 default_max_score = Return 75.0%float.
Proof. reflexivity. Qed.

Example test_is_within_therapeutic_range :
  fst (is_within_therapeutic_range lower 10.0 "drug_a" tt default_ranges_file test_ranges_world)
  = Return true /\
  fst (is_within_therapeutic_range lower 20.0 "drug_a" tt default_ranges_file test_ranges_world)
  = Return false.
Proof. split; vm_compute; reflexivity. Qed.

(** The same test with the write it starts with, from a world without files. *)
Example test_is_within_therapeutic_range_written :
  fst ((json_dump_file default_ranges_file test_ranges;;
        is_within_therapeutic_range lower 10.0 "drug_a" tt default_ranges_file) empty_world)
  = Return true.
Proof. vm_compute. reflexivity. Qed.

Example test_unknown_drug :
  fst (is_within_therapeutic_range lower 10.0 "drug_z" tt default_ranges_file test_ranges_world)
  = Raise (ValueError "Therapeutic range for drug 'drug_z' not found in database.").
Proof. vm_compute. reflexivity. Qed.

Example test_missing_database :
  fst (is_within_therapeutic_range lower 10.0 "drug_a" tt default_ranges_file empty_world)
  = Raise (Exception_ "Database file 'therapeutic_ranges.json' not found.") /\
  fst (check_interactions ["drug_a"; "drug_b"] default_interactions_file empty_world)
  = Raise (Exception_ "Database file 'drug_interactions.json' not found.").
Proof. split; vm_compute; reflexivity. Qed.

(** ** Documents that are not range tables *)

(** An entry that is [null] is reported as an unknown drug, although its
    name is a key of the table. *)
Example null_entry_is_unknown_drug :
  fst (is_within_therapeutic_range lower 10.0 "drug_a" tt default_ranges_file malformed_world)
  = Raise (range_not_found "drug_a").
Proof. vm_compute. reflexivity. Qed.

(** A range of one or of three bounds fails to unpack, with a [ValueError]
    of the interpreter's. *)
Example short_and_long_ranges :
  fst (is_within_therapeutic_range lower 10.0 "drug_b" tt default_ranges_file malformed_world)
  = Raise (ValueError "not enough values to unpack (expected 2, got 1)") /\
  fst (is_within_therapeutic_range lower 10.0 "drug_c" tt default_ranges_file malformed_world)
  = Raise (ValueError "too many values to unpack (expected 2)").
Proof. split; vm_compute; reflexivity. Qed.

(** A bound that is a string raises when it is compared, and is not compared
    when the first comparison already fails. *)
Example string_bound :
  fst (is_within_therapeutic_range lower 10.0 "drug_d" tt default_ranges_file malformed_world)
  = Raise (TypeError "'<=' not supported between instances of 'float' and 'str'") /\
  fst (is_within_therapeutic_range lower 1.0 "drug_d" tt default_ranges_file malformed_world)
  = Return false.
Proof. split; vm_compute; reflexivity. Qed.

(** A string of two characters unpacks, into two strings; a number does
    not; a document that is a list has no [get]. *)
Example other_malformed_documents :
  fst (is_within_therapeutic_range lower 10.0 "drug_e" tt default_ranges_file malformed_world)
  = Raise (TypeError "'<=' not supported between instances of 'str' and 'float'") /\
  fst (is_within_therapeutic_range lower 10.0 "drug_f" tt default_ranges_file malformed_world)
  = Raise (TypeError "cannot unpack non-iterable int object") /\
  fst (is_within_therapeutic_range lower 10.0 "drug_a" tt default_ranges_file list_document_world)
  = Raise (AttributeError "'list' object has no attribute 'get'").
Proof. repeat split; vm_compute; reflexivity. Qed.

(** Integer bounds are compared by value: 2^53 is below the bound 2^53 + 1,
    which a float cannot hold, and 2^53 + 2 is within the range. *)
Example integer_bounds_are_exact :
  fst (is_within_therapeutic_range lower 9007199254740992.0 "drug_a" tt default_ranges_file
         integer_range_world) = Return false /\
  fst (is_within_therapeutic_range lower 9007199254740994.0 "drug_a" tt default_ranges_file
         integer_range_world) = Return true.
Proof. split; vm_compute; reflexivity. Qed.

(** ** The monad *)

Lemma json_load_file_found {D : Type} (db_file : string) (w : world D) (doc : D) :
  files w !! db_file = Some doc -> json_load_file db_file w = (Return doc, w).
Proof. unfold json_load_file. intros ->. reflexivity. Qed.

Lemma json_load_file_missing {D : Type} (db_file : string) (w : world D) :
  files w !! db_file = None ->
  json_load_file db_file w = (Raise (database_not_found db_file), w).
Proof. unfold json_load_file. intros ->. reflexivity. Qed.

Lemma json_load_file_world {D : Type} (db_file : string) (w : world D) :
  snd (json_load_file db_file w) = w.
Proof. unfold json_load_file. destruct (files w !! db_file); reflexivity. Qed.

(** What is written is what is loaded next. *)
Lemma json_load_after_dump {D : Type} (db_file : string) (doc : D) (w : world D) :
  fst ((json_dump_file db_file doc;; json_load_file db_file) w) = Return doc.
Proof.
  unfold mbind, prog_bind, json_dump_file, json_load_file. simpl.
  rewrite lookup_insert_eq. reflexivity.
Qed.

(** ** The double loop, characterised *)

Section ScanFacts.

Context {R : Type} (emit : string -> string -> string -> R).

Lemma scan_step_app d l i j (acc : list R) :
  scan_step emit d l i j acc = acc ++ hit_at emit d l i j.
Proof.
  unfold scan_step, hit_at.
  destruct (l !! i) as [a|]; [destruct (l !! j) as [b|] |];
    [destruct (d !! pair_key a b) | |]; auto using app_nil_r.
Qed.

Lemma foldl_append {A B : Type} (f : B -> list A) (g : list A -> B -> list A) :
  (forall acc x, g acc x = acc ++ f x) ->
  forall xs acc, foldl g acc xs = acc ++ (xs ≫= f).
Proof.
  intros Hg xs. induction xs as [|x xs IH]; intros acc; simpl.
  - symmetry. apply app_nil_r.
  - rewrite IH, Hg, <- app_assoc. reflexivity.
Qed.

Lemma scan_pairs_bind d l :
  scan_pairs emit d l =
  seq 0 (length l) ≫= (fun i => seq (i + 1) (length l - (i + 1)) ≫= hit_at emit d l i).
Proof.
  unfold scan_pairs.
  rewrite (foldl_append
             (fun i => seq (i + 1) (length l - (i + 1)) ≫= hit_at emit d l i)).
  - reflexivity.
  - intros acc i. apply foldl_append. intros acc' j. apply scan_step_app.
Qed.

Lemma elem_of_hit_at d l i j (x : R) :
  x ∈ hit_at emit d l i j <->
  exists a b text, l !! i = Some a /\ l !! j = Some b /\
                   d !! pair_key a b = Some text /\ x = emit a b text.
Proof.
  unfold hit_at. split.
  - destruct (l !! i) as [a|]; [|intros H; inversion H].
    destruct (l !! j) as [b|]; [|intros H; inversion H].
    destruct (d !! pair_key a b) as [text|] eqn:Hd; [|intros H; inversion H].
    intros H. apply list_elem_of_singleton in H. subst x.
    exists a, b, text. auto.
  - intros (a & b & text & -> & -> & -> & ->). apply list_elem_of_singleton. reflexivity.
Qed.

(** An element is appended exactly for the index pairs [i < j] whose key is
    in the dictionary. *)
Lemma elem_of_scan_pairs d l (x : R) :
  x ∈ scan_pairs emit d l <->
  exists i j a b text,
    i < j /\ l !! i = Some a /\ l !! j = Some b /\
    d !! pair_key a b = Some text /\ x = emit a b text.
Proof.
  rewrite scan_pairs_bind, list_elem_of_bind. split.
  - intros (i & Hx & Hi). apply list_elem_of_bind in Hx as (j & Hx & Hj).
    apply elem_of_seq in Hj. apply elem_of_hit_at in Hx as (a & b & text & H).
    exists i, j, a, b, text. split; [lia | exact H].
  - intros (i & j & a & b & text & Hij & Hi & Hj & Hd & ->).
    apply lookup_lt_Some in Hi as Hi', Hj as Hj'.
    exists i. split; [|apply elem_of_seq; lia].
    apply list_elem_of_bind. exists j. split; [|apply elem_of_seq; lia].
    apply elem_of_hit_at. exists a, b, text. auto.
Qed.

Lemma fmap_list_bind {A B C : Type} (g : B -> C) (f : A -> list B) (xs : list A) :
  g <$> (xs ≫= f) = xs ≫= (fun x => g <$> f x).
Proof.
  induction xs as [|x xs IH]; [reflexivity|].
  rewrite !bind_cons, fmap_app, IH. reflexivity.
Qed.

End ScanFacts.

(** The messages are the hits, formatted, in the same order. *)
Lemma scan_pairs_fmap {R R' : Type} (emit : string -> string -> string -> R)
    (g : R -> R') d l :
  scan_pairs (fun a b text => g (emit a b text)) d l = g <$> scan_pairs emit d l.
Proof.
  rewrite !scan_pairs_bind, fmap_list_bind. apply list_bind_ext; [|reflexivity].
  intros i. rewrite fmap_list_bind. apply list_bind_ext; [|reflexivity].
  intros j. unfold hit_at.
  destruct (l !! i) as [a|]; [destruct (l !! j) as [b|] |];
    [destruct (d !! pair_key a b) | |]; reflexivity.
Qed.

(** ** Keys and dictionaries *)

Lemma sorted_pair (x y : string) :
  sorted [x; y] = if String.ltb y x then [y; x] else [x; y].
Proof. reflexivity. Qed.

Lemma sorted_pair_comm (x y : string) : sorted [x; y] = sorted [y; x].
Proof.
  rewrite !sorted_pair. unfold String.ltb.
  rewrite (String.compare_antisym x y).
  destruct (String.compare y x) eqn:Hc; simpl; try reflexivity.
  apply String.compare_eq_iff in Hc. subst. reflexivity.
Qed.

(** Interaction keys are symmetric. *)
Lemma pair_key_comm (a b : string) : pair_key a b = pair_key b a.
Proof. unfold pair_key. rewrite sorted_pair_comm. reflexivity. Qed.


(** A dictionary loaded from a JSON object holds no tuple key. *)
Lemma json_dict_no_tuple {V : Type} (doc : gmap string V) (t : list string) :
  json_object_to_dict doc !! KTuple t = None.
Proof.
  unfold json_object_to_dict. apply lookup_kmap_None; [apply _|].
  intros s Hs. discriminate Hs.
Qed.

(** ** Interaction checker *)

(** On a table loaded from a JSON file the membership test never succeeds:
    the table's keys are strings and the key looked up is a tuple. *)
Lemma interactions_among_json (doc : gmap string string) (l : list string) :
  interactions_among (json_object_to_dict doc) l = [].
Proof.
  apply elem_of_nil_inv. intros x Hx.
  apply elem_of_scan_pairs in Hx as (i & j & a & b & text & _ & _ & _ & Hd & _).
  unfold pair_key in Hd. rewrite json_dict_no_tuple in Hd. discriminate.
Qed.

Lemma check_interactions_loaded (l : list string) (db_file : string)
    (w : world (gmap string string)) (doc : gmap string string) :
  files w !! db_file = Some doc ->
  check_interactions l db_file w = (Return [], w).
Proof.
  intros Hf. unfold check_interactions, mbind, prog_bind.
  rewrite (json_load_file_found _ _ _ Hf), interactions_among_json. reflexivity.
Qed.

Lemma interactions_among_hits d l :
  interactions_among d l =
  (fun h : string * string * string => interaction_message h.1.1 h.1.2 h.2)
    <$> interaction_hits d l.
Proof.
  unfold interactions_among, interaction_hits.
  rewrite <- (scan_pairs_fmap (fun a b text => (a, b, text))). reflexivity.
Qed.

Lemma same_pair_true a b x y t :
  same_pair a b (x, y, t) = true <-> (x = a /\ y = b) \/ (x = b /\ y = a).
Proof.
  unfold same_pair.
  rewrite Bool.orb_true_iff, !Bool.andb_true_iff, !String.eqb_eq. reflexivity.
Qed.

(** A pair of names is found exactly when the two names stand at two distinct
    positions of the list and their key is in the dictionary. *)
Lemma pair_found_spec d l a b :
  pair_found d l a b = true <->
  exists i j, i <> j /\ l !! i = Some a /\ l !! j = Some b /\
              is_Some (d !! pair_key a b).
Proof.
  unfold pair_found, interaction_hits. rewrite existsb_exists. split.
  - intros ([[x y] t] & Hin & Hsame).
    apply list_elem_of_In, elem_of_scan_pairs in Hin
      as (i & j & x' & y' & t' & Hij & Hi & Hj & Hd & Heq).
    injection Heq as -> -> ->.
    apply same_pair_true in Hsame as [[-> ->]|[-> ->]].
    + exists i, j. repeat split; [lia | assumption | assumption | eauto].
    + exists j, i. rewrite pair_key_comm.
      repeat split; [lia | assumption | assumption | eauto].
  - intros (i & j & Hij & Hi & Hj & [t Hd]).
    destruct (Nat.lt_total i j) as [Hlt|[Heq|Hgt]]; [|contradiction|].
    + exists (a, b, t). split; [|apply same_pair_true; auto].
      apply list_elem_of_In, elem_of_scan_pairs. exists i, j, a, b, t. auto.
    + exists (b, a, t). split; [|apply same_pair_true; auto].
      apply list_elem_of_In, elem_of_scan_pairs. exists j, i, b, a, t.
      rewrite pair_key_comm. auto.
Qed.

Lemma pair_found_perm_true d l l' a b :
  l ≡ₚ l' -> pair_found d l a b = true -> pair_found d l' a b = true.
Proof.
  intros Hp. apply Permutation_inj in Hp as (_ & f & Hinj & Hf).
  rewrite !pair_found_spec. intros (i & j & Hij & Hi & Hj & Hd).
  exists (f i), (f j). rewrite <- !Hf.
  repeat split; try assumption. intros Heq. apply Hij, Hinj, Heq.
Qed.

Lemma scan_pairs_short {R : Type} (emit : string -> string -> string -> R) d l :
  length l <= 1 -> scan_pairs emit d l = [].
Proof.
  intros Hlen. apply elem_of_nil_inv. intros x Hx.
  apply elem_of_scan_pairs in Hx as (i & j & a & b & text & Hij & Hi & Hj & _).
  apply lookup_lt_Some in Hi, Hj. lia.
Qed.

(** C1. The claim: for every pair of names whose lowercased, sorted pair is a
    key of the loaded table, [check_interactions] emits a message naming both
    names and the text; in particular the table of the source's own unit test,
    [{"drug_a,drug_b": "Increased risk of toxicity"}], gives exactly one
    message for [["drug_a", "drug_b"]].  The code does not do that: on the
    unit test's file and list it returns the empty list, because the key it
    looks up is a tuple and every key of a loaded table is a string. *)
Theorem check_interactions_test_table :
  check_interactions ["drug_a"; "drug_b"] default_interactions_file test_interactions_world
  = (Return [], test_interactions_world).
Proof.
  apply check_interactions_loaded
    with (doc := {[ "drug_a,drug_b" := "Increased risk of toxicity" ]}).
  reflexivity.
Qed.

(** The same list on a dictionary keyed by the sorted tuple is reported as the
    unit test expects. *)
Example interactions_among_tuple_table :
  interactions_among tuple_table ["drug_a"; "drug_b"]
  = ["Interaction between drug_a and drug_b: Increased risk of toxicity"].
Proof. vm_compute. reflexivity. Qed.

(** C5. Permuting the input list does not change whether an unordered pair
    of names is found, whatever the dictionary, and a list of zero or one
    drug gives no message: on a dictionary, and through the file of any
    world that has one at the path. *)
Theorem check_interactions_symmetric (d : gmap key string) (l : list string) :
  (forall l' a b, l ≡ₚ l' -> pair_found d l a b = pair_found d l' a b) /\
  (length l <= 1 -> interactions_among d l = []) /\
  (forall db_file w doc,
      length l <= 1 -> files w !! db_file = Some doc ->
      fst (check_interactions l db_file w) = Return []).
Proof.
  split; [|split].
  - intros l' a b Hp. apply Bool.eq_iff_eq_true. split.
    + apply pair_found_perm_true, Hp.
    + apply pair_found_perm_true. symmetry. exact Hp.
  - apply scan_pairs_short.
  - intros db_file w doc _ Hf. rewrite (check_interactions_loaded _ _ _ _ Hf). reflexivity.
Qed.

Lemma check_interactions_symmetric_witness :
  pair_found tuple_table ["Drug_B"; "Drug_C"; "drug_a"] "drug_a" "Drug_B" = true /\
  pair_found tuple_table ["drug_a"; "Drug_B"; "Drug_C"] "drug_a" "Drug_B" = true /\
  interactions_among tuple_table ["drug_a"] = [].
Proof.
  split; [|split].
  - vm_compute. reflexivity.
  - rewrite <- (proj1 (check_interactions_symmetric tuple_table ["Drug_B"; "Drug_C"; "drug_a"])
                  ["drug_a"; "Drug_B"; "Drug_C"] "drug_a" "Drug_B").
    + vm_compute. reflexivity.
    + apply (Permutation_app_comm ["Drug_B"; "Drug_C"] ["drug_a"]).
  - apply (proj1 (proj2 (check_interactions_symmetric tuple_table ["drug_a"]))).
    simpl. lia.
Defined.

(** The loop pairs positions, not names: a name that stands at two positions
    is paired with itself, and a dictionary keyed by the sorted tuple gives
    the message. *)
Example interactions_among_duplicate :
  interactions_among tuple_table ["drug_a"; "drug_a"]
  = ["Interaction between drug_a and drug_a: Duplicate therapy"].
Proof. vm_compute. reflexivity. Qed.


(** ** Numbers *)

Local Open Scope Z_scope.

Lemma digits2_pos_bounds (m : positive) :
  2 ^ (Z.pos (digits2_pos m) - 1) <= Z.pos m < 2 ^ Z.pos (digits2_pos m).
Proof.
  induction m as [m IH|m IH|]; cbn [digits2_pos].
  - change (PosDef.Pos.succ (digits2_pos m)) with (Pos.succ (digits2_pos m)).
    rewrite Pos2Z.inj_succ.
    replace (Z.succ (Z.pos (digits2_pos m)) - 1)
      with (Z.succ (Z.pos (digits2_pos m) - 1)) by lia.
    rewrite !Z.pow_succ_r by lia. lia.
  - change (PosDef.Pos.succ (digits2_pos m)) with (Pos.succ (digits2_pos m)).
    rewrite Pos2Z.inj_succ.
    replace (Z.succ (Z.pos (digits2_pos m)) - 1)
      with (Z.succ (Z.pos (digits2_pos m) - 1)) by lia.
    rewrite !Z.pow_succ_r by lia. lia.
  - simpl. lia.
Qed.

(** The mantissa and exponent of a float: the exponent is at least -1074,
    the mantissa has at most 53 bits, and exactly 53 above the least
    exponent. *)
Lemma bounded_mantissa (m : positive) (e : Z) :
  bounded prec emax m e = true ->
  -1074 <= e /\ Z.pos m < 2 ^ 53 /\ (-1074 < e -> 2 ^ 52 <= Z.pos m).
Proof.
  unfold bounded, canonical_mantissa, fexp, SpecFloat.emin.
  intros H. apply andb_prop in H as [H _]. apply Z.eqb_eq in H.
  change (IntDef.Z.max) with Z.max in H.
  change (3 - emax - prec) with (-1074) in H. change prec with 53 in H.
  assert (Hd : -1074 <= e /\ Z.pos (digits2_pos m) <= 53 /\
               (-1074 < e -> Z.pos (digits2_pos m) = 53)) by lia.
  clear H. destruct Hd as (He & Hd & Hn).
  pose proof (digits2_pos_bounds m) as [Hlo Hhi].
  split; [exact He|]. split.
  - apply Z.lt_le_trans with (1 := Hhi).
    apply Z.pow_le_mono_r; [reflexivity | exact Hd].
  - intros He'. rewrite (Hn He') in Hlo. exact Hlo.
Qed.

(** A float of smaller exponent is a smaller number. *)
Lemma scaled_lt (m1 m2 : positive) (e1 e2 : Z) :
  bounded prec emax m1 e1 = true -> bounded prec emax m2 e2 = true ->
  e1 < e2 -> Z.pos m1 * 2 ^ (e1 + 1074) < Z.pos m2 * 2 ^ (e2 + 1074).
Proof.
  intros H1 H2 He.
  apply bounded_mantissa in H1 as (He1 & Hm1 & _), H2 as (_ & _ & Hm2).
  specialize (Hm2 ltac:(lia)).
  replace (e2 + 1074) with ((e2 - e1 - 1) + 1 + (e1 + 1074)) by lia.
  rewrite (Z.pow_add_r 2 (e2 - e1 - 1 + 1) (e1 + 1074)) by lia.
  rewrite (Z.pow_add_r 2 (e2 - e1 - 1) 1) by lia.
  assert (0 < 2 ^ (e1 + 1074)) by (apply Z.pow_pos_nonneg; lia).
  assert (0 < 2 ^ (e2 - e1 - 1)) by (apply Z.pow_pos_nonneg; lia).
  change (2 ^ 1) with 2. change (2 ^ 53) with 9007199254740992 in Hm1.
  change (2 ^ 52) with 4503599627370496 in Hm2.
  rewrite Z.mul_assoc. apply Z.mul_lt_mono_pos_r; [assumption|].
  assert (1 <= 2 ^ (e2 - e1 - 1)) by lia. nia.
Qed.

(** The comparison of two floats is the comparison of their exact values. *)
Lemma SFcompare_exact (f1 f2 : spec_float) :
  valid_binary f1 = true -> valid_binary f2 = true ->
  SFcompare f1 f2 = exact_compare (spec_exact f1) (spec_exact f2).
Proof.
  destruct f1 as [s1|s1| |s1 m1 e1], f2 as [s2|s2| |s2 m2 e2];
    try destruct s1; try destruct s2; try reflexivity; cbn [valid_binary]; intros H1 H2.
  all: cbn [SFcompare spec_exact exact_compare signed]; f_equal.
  all: try (pose proof (bounded_mantissa _ _ H1) as (He1 & _ & _));
       try (pose proof (bounded_mantissa _ _ H2) as (He2 & _ & _)).
  all: try (assert (0 < 2 ^ (e1 + 1074)) by (apply Z.pow_pos_nonneg; lia));
       try (assert (0 < 2 ^ (e2 + 1074)) by (apply Z.pow_pos_nonneg; lia)).
  all: change (PosDef.Pos.compare_cont Eq) with Pos.compare.
  all: try (symmetry; first [apply Z.compare_lt_iff | apply Z.compare_gt_iff]; nia).
  - destruct (Z.compare_spec e1 e2) as [->|Hlt|Hgt]; symmetry.
    + rewrite <- Pos.compare_antisym.
      destruct (Pos.compare_spec m2 m1) as [->|Hm|Hm].
      * apply Z.compare_refl.
      * apply Z.compare_lt_iff. nia.
      * apply Z.compare_gt_iff. nia.
    + apply Z.compare_gt_iff. pose proof (scaled_lt _ _ _ _ H1 H2 Hlt). lia.
    + apply Z.compare_lt_iff. pose proof (scaled_lt _ _ _ _ H2 H1 Hgt). lia.
  - destruct (Z.compare_spec e1 e2) as [->|Hlt|Hgt]; symmetry.
    + destruct (Pos.compare_spec m1 m2) as [->|Hm|Hm].
      * apply Z.compare_refl.
      * apply Z.compare_lt_iff. nia.
      * apply Z.compare_gt_iff. nia.
    + apply Z.compare_lt_iff. apply (scaled_lt _ _ _ _ H1 H2 Hlt).
    + apply Z.compare_gt_iff. apply (scaled_lt _ _ _ _ H2 H1 Hgt).
Qed.

Local Close Scope Z_scope.

Lemma leb_exact (x y : float) :
  (x <=? y)%float = exact_le (float_exact x) (float_exact y).
Proof.
  rewrite leb_spec. unfold SFleb, exact_le, float_exact.
  rewrite SFcompare_exact by apply Prim2SF_valid. reflexivity.
Qed.

Lemma ltb_exact (x y : float) :
  (x <? y)%float = exact_lt (float_exact x) (float_exact y).
Proof.
  rewrite ltb_spec. unfold SFltb, exact_lt, float_exact.
  rewrite SFcompare_exact by apply Prim2SF_valid. reflexivity.
Qed.

(** Python's [<=] and [<] on numbers are the order of their exact values. *)
Lemma number_le_exact (a b : number) :
  number_le a b = exact_le (number_exact a) (number_exact b).
Proof. destruct a, b; try reflexivity. apply leb_exact. Qed.

Lemma number_lt_exact (a b : number) :
  number_lt a b = exact_lt (number_exact a) (number_exact b).
Proof. destruct a, b; try reflexivity. apply ltb_exact. Qed.

Lemma exact_le_trans (a b c : exact) :
  exact_le a b = true -> exact_le b c = true -> exact_le a c = true.
Proof.
  unfold exact_le. destruct a as [| |x|], b as [| |y|], c as [| |z|]; simpl;
    try discriminate; try reflexivity.
  destruct (Z.compare_spec x y), (Z.compare_spec y z), (Z.compare_spec x z);
    try discriminate; try reflexivity; lia.
Qed.

Lemma exact_le_lt_chain (a b c : exact) :
  exact_le a b = true -> exact_le b c = true -> exact_lt c a = false.
Proof.
  unfold exact_le, exact_lt. destruct a as [| |x|], b as [| |y|], c as [| |z|]; simpl;
    try discriminate; try reflexivity.
  destruct (Z.compare_spec x y), (Z.compare_spec y z), (Z.compare_spec z x);
    try discriminate; try reflexivity; lia.
Qed.

Lemma exact_le_nan (a b : exact) : a = ENan \/ b = ENan -> exact_le a b = false.
Proof. intros [-> | ->]; [reflexivity|]. destruct a; reflexivity. Qed.

Lemma exact_le_refl (a : exact) : a <> ENan -> exact_le a a = true.
Proof.
  unfold exact_le. destruct a as [| |x|]; simpl; try reflexivity; [congruence|].
  rewrite Z.compare_refl. reflexivity.
Qed.

Lemma float_exact_nan (x : float) : class_of x = FNan <-> float_exact x = ENan.
Proof.
  unfold class_of, float_exact.
  destruct (Prim2SF x) as [s|s| |s m e]; simpl; try destruct s; split; congruence.
Qed.

(** ** Therapeutic range checker *)

(** The function, run: the file is read, the world is left as it was, and
    the outcome is that of the steps after the reading. *)
Lemma is_within_therapeutic_range_run (str_lower : string -> string) {P : Type}
    (c : float) (name : string) (pd : P) (db_file : string) (w : world json) :
  is_within_therapeutic_range str_lower c name pd db_file w =
  (match files w !! db_file with
   | None => Raise (database_not_found db_file)
   | Some doc => range_outcome name (str_lower name) c doc
   end, w).
Proof.
  unfold is_within_therapeutic_range, range_outcome, mbind, prog_bind, json_load_file, lift.
  destruct (files w !! db_file) as [doc|]; [|reflexivity].
  destruct (dict_get doc (str_lower name)) as [v|e]; [|reflexivity].
  simpl. destruct v; try reflexivity;
    match goal with
    | |- context [unpack ?v] => destruct (unpack v) as [[lo hi]|e]; reflexivity
    end.
Qed.

Lemma is_within_therapeutic_range_outcome (str_lower : string -> string) {P : Type}
    (c : float) (name : string) (pd : P) (db_file : string) (w : world json) :
  fst (is_within_therapeutic_range str_lower c name pd db_file w) =
  match files w !! db_file with
  | None => Raise (database_not_found db_file)
  | Some doc => range_outcome name (str_lower name) c doc
  end.
Proof. rewrite is_within_therapeutic_range_run. reflexivity. Qed.

(** An entry that is a list of two bounds: the outcome is the chained
    comparison. *)
Lemma range_outcome_pair (name key : string) (c : float) (o : gmap string json)
    (low upper : json) :
  o !! key = Some (JList [low; upper]) ->
  range_outcome name key c (JObject o) = chained_le low c upper.
Proof. unfold range_outcome. simpl. intros ->. reflexivity. Qed.

Lemma range_outcome_absent (name key : string) (c : float) (o : gmap string json) :
  o !! key = None -> range_outcome name key c (JObject o) = Raise (range_not_found name).
Proof. unfold range_outcome. simpl. intros ->. reflexivity. Qed.

(** The chained comparison on two numeric bounds, by exact values. *)
Lemma chained_le_numbers (low upper : json) (c : float) (a b : number) :
  as_number low = Some a -> as_number upper = Some b ->
  chained_le low c upper
  = Return (exact_le (number_exact a) (float_exact c)
            && exact_le (float_exact c) (number_exact b)).
Proof.
  intros Ha Hb. unfold chained_le, le_float, float_le. rewrite Ha, Hb.
  cbn [outcome_bind]. rewrite !number_le_exact. cbn [number_exact].
  destruct (exact_le (number_exact a) (float_exact c)); reflexivity.
Qed.



Lemma lower_char_not_upper (c : ascii) : is_ascii_upper (lower_char c) = false.
Proof.
  destruct c as [b0 b1 b2 b3 b4 b5 b6 b7].
  destruct b0, b1, b2, b3, b4, b5, b6, b7; reflexivity.
Qed.

Lemma lower_not_upper (s : string) : has_upper (lower s) = false.
Proof.
  induction s as [|c s IH]; simpl; [reflexivity|].
  rewrite lower_char_not_upper, IH. reflexivity.
Qed.

(** ASCII lowercasing changes a string that holds one of the letters [A] to
    [Z], and changes no string twice. *)
Lemma lower_changes_upper (k : string) : has_upper k = true -> lower k <> k.
Proof. intros Hk Heq. rewrite <- Heq, lower_not_upper in Hk. discriminate. Qed.

Lemma lower_char_idemp (c : ascii) : lower_char (lower_char c) = lower_char c.
Proof.
  destruct c as [b0 b1 b2 b3 b4 b5 b6 b7].
  destruct b0, b1, b2, b3, b4, b5, b6, b7; reflexivity.
Qed.

Lemma lower_idemp (s : string) : lower (lower s) = lower s.
Proof.
  induction s as [|c s IH]; simpl; [reflexivity|].
  rewrite lower_char_idemp, IH. reflexivity.
Qed.

(** C2. When the loaded table maps the lowercased name to a list of two
    numbers [low, upper], integers or floats, the function returns the truth
    value of [low <= concentration <= upper] on the exact values of the three
    numbers; both comparisons are inclusive, a concentration equal to a bound
    of a range with [low <= upper] is within it.  The lookup does not tell
    apart two query names that [str.lower] sends to the same string: for
    ASCII names, two names with the same ASCII lowercase form. *)
Theorem is_within_therapeutic_range_found (str_lower : string -> string) {P : Type}
    (c : float) (name : string) (pd : P) (db_file : string) (w : world json)
    (o : gmap string json) (low upper : json) (a b : number) :
  files w !! db_file = Some (JObject o) ->
  o !! str_lower name = Some (JList [low; upper]) ->
  as_number low = Some a -> as_number upper = Some b ->
  fst (is_within_therapeutic_range str_lower c name pd db_file w)
  = Return (exact_le (number_exact a) (float_exact c)
            && exact_le (float_exact c) (number_exact b)) /\
  (exact_le (number_exact a) (number_exact b) = true ->
   float_exact c = number_exact a \/ float_exact c = number_exact b ->
   fst (is_within_therapeutic_range str_lower c name pd db_file w) = Return true) /\
  (forall name', str_lower name' = str_lower name ->
     fst (is_within_therapeutic_range str_lower c name' pd db_file w)
     = fst (is_within_therapeutic_range str_lower c name pd db_file w)) /\
  ((forall s, is_ascii s = true -> str_lower s = lower s) ->
   forall name',
     is_ascii name = true -> is_ascii name' = true -> lower name' = lower name ->
     fst (is_within_therapeutic_range str_lower c name' pd db_file w)
     = fst (is_within_therapeutic_range str_lower c name pd db_file w)).
Proof.
  intros Hf Ho Ha Hb.
  assert (Hrun : fst (is_within_therapeutic_range str_lower c name pd db_file w)
                 = Return (exact_le (number_exact a) (float_exact c)
                           && exact_le (float_exact c) (number_exact b))).
  { rewrite is_within_therapeutic_range_outcome, Hf, (range_outcome_pair _ _ _ _ _ _ Ho).
    apply chained_le_numbers; assumption. }
  assert (Hsame : forall name', str_lower name' = str_lower name ->
            fst (is_within_therapeutic_range str_lower c name' pd db_file w)
            = fst (is_within_therapeutic_range str_lower c name pd db_file w)).
  { intros name' Hn. rewrite !is_within_therapeutic_range_outcome, Hf, Hn.
    rewrite !(range_outcome_pair _ _ _ _ _ _ Ho). reflexivity. }
  split; [exact Hrun|]. split; [|split].
  - intros Hab Hc. rewrite Hrun. f_equal.
    assert (Hna : number_exact a <> ENan) by (intros Hn; rewrite Hn in Hab; discriminate).
    assert (Hnb : number_exact b <> ENan).
    { intros Hn. rewrite (exact_le_nan _ (number_exact b)) in Hab by auto. discriminate. }
    destruct Hc as [-> | ->].
    + rewrite exact_le_refl, Hab by exact Hna. reflexivity.
    + rewrite exact_le_refl, Hab by exact Hnb. reflexivity.
  - exact Hsame.
  - intros Hascii name' Hn Hn' Hl. apply Hsame.
    rewrite (Hascii _ Hn), (Hascii _ Hn'). exact Hl.
Qed.

Lemma is_within_therapeutic_range_found_witness :
  fst (is_within_therapeutic_range lower 5.0 "Drug_A" tt default_ranges_file test_ranges_world)
  = Return true /\
  fst (is_within_therapeutic_range lower 15.0 "DRUG_A" tt default_ranges_file test_ranges_world)
  = fst (is_within_therapeutic_range lower 15.0 "drug_a" tt default_ranges_file
           test_ranges_world).
Proof.
  split.
  - apply (proj1 (is_within_therapeutic_range_found lower 5.0 "Drug_A" tt
                    default_ranges_file test_ranges_world
                    {[ "drug_a" := JList [JFloat 5.0; JFloat 15.0] ]}
                    (JFloat 5.0) (JFloat 15.0) (NFloat 5.0) (NFloat 15.0)
                    eq_refl eq_refl eq_refl eq_refl)).
  - apply (proj2 (proj2 (proj2 (is_within_therapeutic_range_found lower 15.0 "drug_a" tt
                                  default_ranges_file test_ranges_world
                                  {[ "drug_a" := JList [JFloat 5.0; JFloat 15.0] ]}
                                  (JFloat 5.0) (JFloat 15.0) (NFloat 5.0) (NFloat 15.0)
                                  eq_refl eq_refl eq_refl eq_refl)))
             (fun s _ => eq_refl) "DRUG_A" eq_refl eq_refl eq_refl).
Defined.

(** *** Errors *)

Lemma unpack_list_raises (l : list json) (e : exn) :
  unpack_list l = Raise e -> e = unpack_error (length l) /\ length l <> 2.
Proof.
  destruct l as [|a [|b [|x l]]]; simpl; intros H; try discriminate;
    injection H as <-; split; (reflexivity || lia).
Qed.

Lemma unpack_error_neq (n : nat) (name : string) : unpack_error n <> range_not_found name.
Proof. unfold unpack_error, range_not_found. destruct (n <? 2)%nat; discriminate. Qed.

Lemma chained_le_raises (lo hi : json) (c : float) (e : exn) :
  chained_le lo c hi = Raise e -> exists msg, e = TypeError msg.
Proof.
  unfold chained_le, le_float, float_le, not_supported.
  destruct (as_number lo) as [a|]; simpl.
  - destruct (number_le a (NFloat c)); [|discriminate].
    destruct (as_number hi); [discriminate|]. intros H. injection H as <-. eauto.
  - intros H. injection H as <-. eauto.
Qed.

Lemma unpack_raises (v : json) (e : exn) (name : string) :
  unpack v = Raise e -> e <> range_not_found name /\ is_interpreter_error e = true.
Proof.
  assert (Hl : forall l, unpack_list l = Raise e ->
                 e <> range_not_found name /\ is_interpreter_error e = true).
  { intros l H. apply unpack_list_raises in H as [-> _].
    split; [apply unpack_error_neq|]. unfold unpack_error. destruct (_ <? _)%nat; reflexivity. }
  destruct v; simpl; try (intros H; injection H as <-; split; [discriminate|reflexivity]);
    apply Hl.
Qed.




(** C8. The outcome and the world left behind do not depend on
    [patient_data]: the argument is accepted and never read. *)
Theorem patient_data_ignored (str_lower : string -> string) {P1 P2 : Type}
    (c : float) (name : string) (d1 : P1) (d2 : P2) (db_file : string) (w : world json) :
  is_within_therapeutic_range str_lower c name d1 db_file w
  = is_within_therapeutic_range str_lower c name d2 db_file w.
Proof. rewrite !is_within_therapeutic_range_run. reflexivity. Qed.

(** C9, as stated, fails: the table below stores a drug under the key
    ["Drug_A"], which holds uppercase letters, and the query ["Drug_A"],
    equal to that key character for character, raises nothing: its lowercase
    form is another key of the table. *)
Lemma mixed_case_key_counterexample :
  has_upper "Drug_A" = true /\
  files mixed_case_world !! default_ranges_file = Some (JObject mixed_case_ranges) /\
  mixed_case_ranges !! "Drug_A" = Some (JList [JFloat 5.0; JFloat 15.0]) /\
  fst (is_within_therapeutic_range lower 10.0 "Drug_A" tt default_ranges_file mixed_case_world)
  = Return true.
Proof. repeat split; vm_compute; reflexivity. Qed.

(** C9, amended. Only the query name is lowercased, and stored keys are
    compared verbatim: an entry stored under a key that lowercasing would
    change, as it changes every key with a letter that has a lowercase form,
    is never the one consulted.  For every query name, the one equal to the
    stored key included, the lowercased query differs from that key, the call
    raises the unknown-drug error whenever the lowercased query is not itself
    a key, and it behaves as if the entry were not in the table.  That
    [str.lower] changes no string twice is assumed of it. *)
Theorem mixed_case_key_unreachable (str_lower : string -> string) {P : Type}
    (c : float) (q : string) (pd : P) (db_file : string) (w : world json)
    (o : gmap string json) (k : string) :
  (forall s, str_lower (str_lower s) = str_lower s) ->
  files w !! db_file = Some (JObject o) ->
  str_lower k <> k ->
  str_lower q <> k /\
  (o !! str_lower q = None ->
   fst (is_within_therapeutic_range str_lower c q pd db_file w) = Raise (range_not_found q)) /\
  fst (is_within_therapeutic_range str_lower c q pd db_file
         (World (<[db_file := JObject (delete k o)]> (files w))))
  = fst (is_within_therapeutic_range str_lower c q pd db_file w).
Proof.
  intros Hidem Hf Hk.
  assert (Hne : str_lower q <> k).
  { intros Heq. apply Hk. rewrite <- Heq. apply Hidem. }
  split; [exact Hne|]. split.
  - intros Hnone.
    rewrite is_within_therapeutic_range_outcome, Hf. apply range_outcome_absent, Hnone.
  - rewrite !is_within_therapeutic_range_outcome, Hf. simpl.
    rewrite lookup_insert_eq. unfold range_outcome. simpl.
    rewrite lookup_delete_ne by congruence. reflexivity.
Qed.

Lemma mixed_case_key_unreachable_witness :
  lower "Drug_A" <> "Drug_A" /\
  fst (is_within_therapeutic_range lower 10.0 "Drug_A" tt default_ranges_file upper_only_world)
  = Raise (range_not_found "Drug_A").
Proof.
  split; [apply lower_changes_upper; reflexivity|].
  apply (proj1 (proj2 (mixed_case_key_unreachable lower 10.0 "Drug_A" tt
                         default_ranges_file upper_only_world
                         {[ "Drug_A" := JList [JFloat 5.0; JFloat 15.0] ]} "Drug_A"
                         lower_idemp eq_refl
                         (lower_changes_upper "Drug_A" eq_refl)))).
  vm_compute. reflexivity.
Defined.


(** ** Floats *)

Lemma is_zero_class (x : float) : (x =? 0)%float = true <-> class_of x = FZero.
Proof.
  rewrite FloatAxioms.eqb_spec. unfold class_of.
  destruct (Prim2SF x) as [s|s| |s m e]; try destruct s; vm_compute; split; congruence.
Qed.

(** A finite nonzero float divided by itself is exactly one. *)
Lemma SFdiv_self (s : bool) (m : positive) (e : Z) :
  SFdiv prec emax (S754_finite s m e) (S754_finite s m e) = Prim2SF 1.
Proof.
  unfold SFdiv, SFdiv_core_binary.
  replace (Zdigits2 (Z.pos m) + e - (Zdigits2 (Z.pos m) + e))%Z with 0%Z by lia.
  replace (e - e)%Z with 0%Z by lia.
  change (fexp prec emax 0 `min` 0)%Z with (-53)%Z.
  change (0 - -53)%Z with 53%Z. cbv iota beta zeta.
  rewrite Z.shiftl_mul_pow2 by lia.
  change (IntDef.Z.div_eucl) with Z.div_eucl.
  pose proof (Z.div_mul (2 ^ 53) (Z.pos m) ltac:(lia)) as Hq.
  pose proof (Z.mod_mul (2 ^ 53) (Z.pos m) ltac:(lia)) as Hr.
  unfold Z.div, Z.modulo in Hq, Hr. rewrite (Z.mul_comm (Z.pos m)).
  destruct (Z.div_eucl (2 ^ 53 * Z.pos m) (Z.pos m)) as [q r].
  subst q r.
  replace (xorb s s) with false by (destruct s; reflexivity).
  assert (new_location (Z.pos m) 0 = loc_Exact) as ->.
  { unfold new_location, new_location_even, new_location_odd.
    destruct (Z.even _); reflexivity. }
  vm_compute. reflexivity.
Qed.

Lemma div_self (x : float) : class_of x = FFinite -> (x / x)%float = 1%float.
Proof.
  unfold class_of. intros H. apply Prim2SF_inj. rewrite div_spec.
  destruct (Prim2SF x) as [s|s| |s m e]; try discriminate.
  apply SFdiv_self.
Qed.

(** A zero divided by a nonzero float that is not [nan] is a zero. *)
Lemma div_zero_class (x y : float) :
  class_of x = FZero -> class_of y = FFinite \/ class_of y = FInfinite ->
  class_of (x / y)%float = FZero.
Proof.
  unfold class_of. rewrite div_spec. intros Hx Hy.
  destruct (Prim2SF x) as [sx|sx| |sx mx ex]; try discriminate.
  destruct (Prim2SF y) as [sy|sy| |sy my ey]; destruct Hy; try discriminate; reflexivity.
Qed.

Lemma nonzero_class (y : float) :
  class_of y = FFinite \/ class_of y = FInfinite -> (y =? 0)%float = false.
Proof.
  intros Hy. destruct (y =? 0)%float eqn:Hz; [|reflexivity].
  apply is_zero_class in Hz. destruct Hy; congruence.
Qed.

(** ** Formulas *)

Lemma truediv_zero (a b : float) :
  (b =? 0)%float = true -> truediv a b = Raise ZeroDivisionError.
Proof. unfold truediv. intros ->. reflexivity. Qed.

Lemma truediv_nonzero (a b : float) :
  (b =? 0)%float = false -> truediv a b = Return (a / b)%float.
Proof. unfold truediv. intros ->. reflexivity. Qed.

Lemma half_life_run (CL Vd : float) :
  half_life CL Vd =
  if (Vd =? 0)%float then Raise ZeroDivisionError
  else if (CL / Vd =? 0)%float then Raise ZeroDivisionError
       else Return (0.693 / (CL / Vd))%float.
Proof.
  unfold half_life, elimination_rate_constant, truediv.
  destruct (Vd =? 0)%float; reflexivity.
Qed.

(** C4, as stated, fails: the clearance and the volume below are both
    finite and nonzero, their quotient underflows to zero, and the division
    of 0.693 by it raises. *)
Lemma half_life_underflow_counterexample :
  class_of 1e-200 = FFinite /\ (1e-200 =? 0)%float = false /\
  class_of 1e200 = FFinite /\ (1e200 =? 0)%float = false /\
  elimination_rate_constant 1e-200 1e200 = Return 0%float /\
  half_life 1e-200 1e200 = Raise ZeroDivisionError.
Proof. repeat split; reflexivity. Qed.

(** C4, amended. [half_life CL Vd] is [0.693 / (CL / Vd)] whenever [Vd] and
    the quotient [CL / Vd] computed in floating point are nonzero; the
    division error is reached exactly when [Vd] is zero, inside
    [elimination_rate_constant], or the computed quotient is zero, in the
    division of 0.693.  The quotient is zero when [CL] is zero and [Vd] is a
    nonzero number, finite or infinite. *)
Theorem half_life_division_error (CL Vd : float) :
  ((Vd =? 0)%float = true ->
     elimination_rate_constant CL Vd = Raise ZeroDivisionError /\
     half_life CL Vd = Raise ZeroDivisionError) /\
  ((Vd =? 0)%float = false ->
     elimination_rate_constant CL Vd = Return (CL / Vd)%float /\
     ((CL / Vd =? 0)%float = true -> half_life CL Vd = Raise ZeroDivisionError) /\
     ((CL / Vd =? 0)%float = false ->
        half_life CL Vd = Return (0.693 / (CL / Vd))%float)) /\
  (raises (half_life CL Vd) = true <->
     (Vd =? 0)%float = true \/ (CL / Vd =? 0)%float = true) /\
  ((CL =? 0)%float = true -> class_of Vd = FFinite \/ class_of Vd = FInfinite ->
     elimination_rate_constant CL Vd = Return (CL / Vd)%float /\
     half_life CL Vd = Raise ZeroDivisionError).
Proof.
  split; [|split; [|split]].
  - intros Hz. split; [apply truediv_zero, Hz|].
    rewrite half_life_run, Hz. reflexivity.
  - intros Hz. split; [apply truediv_nonzero, Hz|].
    split; intros Hq; rewrite half_life_run, Hz, Hq; reflexivity.
  - rewrite half_life_run. split.
    + destruct (Vd =? 0)%float; [auto|].
      destruct (CL / Vd =? 0)%float; [auto | discriminate].
    + intros [-> | Hq]; [reflexivity|].
      rewrite Hq. destruct (Vd =? 0)%float; reflexivity.
  - intros Hc Hv. split; [apply truediv_nonzero, nonzero_class, Hv|].
    rewrite half_life_run, (nonzero_class Vd Hv).
    assert ((CL / Vd =? 0)%float = true) as ->; [|reflexivity].
    apply is_zero_class, div_zero_class; [apply is_zero_class, Hc | exact Hv].
Qed.

Lemma half_life_division_error_witness :
  half_life 5.0 50.0 = Return (0.693 / (5.0 / 50.0))%float /\
  half_life 0 50.0 = Raise ZeroDivisionError /\
  half_life 5.0 0 = Raise ZeroDivisionError.
Proof.
  split; [|split].
  - apply (proj2 (proj2 (proj1 (proj2 (half_life_division_error 5.0 50.0)) eq_refl)) eq_refl).
  - apply (proj2 (proj2 (proj2 (proj2 (half_life_division_error 0 50.0))) eq_refl
                    (or_introl eq_refl))).
  - apply (proj2 (proj1 (half_life_division_error 5.0 0) eq_refl)).
Defined.

(** C6, as stated, fails at an infinite score: [max_score] is not zero,
    [score] equals [max_score], and the result is [nan], not half the dose. *)
Lemma adjust_dose_infinite_score_counterexample :
  (infinity =? 0)%float = false /\ (infinity =? infinity)%float = true /\
  adjust_dose_for_liver_function 100.0 infinity infinity = Return nan /\
  adjust_dose_for_liver_function 100.0 infinity infinity <> Return (100.0 * 0.5)%float.
Proof.
  repeat split; try reflexivity.
  intros Heq.
  apply (f_equal (fun o => match o with
                           | Return x => (x =? x)%float
                           | Raise _ => true
                           end)) in Heq.
  discriminate Heq.
Qed.

(** C6, amended. For every dose, score and nonzero [max_score] the result is
    [dose * (1 - (score / max_score) * 0.5)]; at [score = max_score], with
    [max_score] finite, it is exactly [dose * 0.5]; and the result is not
    clamped: a score above [max_score] can take it below [dose * 0.5] and
    below zero, and a negative score can take it above the dose. *)
Theorem adjust_dose_for_liver_function_formula :
  (forall dose score max_score : float,
     (max_score =? 0)%float = false ->
     adjust_dose_for_liver_function dose score max_score
     = Return (dose * (1 - (score / max_score) * 0.5))%float) /\
  (forall dose max_score : float,
     class_of max_score = FFinite ->
     adjust_dose_for_liver_function dose max_score max_score
     = Return (dose * 0.5)%float) /\
  (exists dose score max_score r : float,
     (max_score <? score)%float = true /\
     adjust_dose_for_liver_function dose score max_score = Return r /\
     (r <? dose * 0.5)%float = true /\ (r <? 0)%float = true) /\
  (exists dose score max_score r : float,
     (score <? 0)%float = true /\
     adjust_dose_for_liver_function dose score max_score = Return r /\
     (dose <? r)%float = true).
Proof.
  split; [|split; [|split]].
  - intros dose score max_score Hz.
    unfold adjust_dose_for_liver_function. rewrite (truediv_nonzero _ _ Hz). reflexivity.
  - intros dose max_score Hfin.
    unfold adjust_dose_for_liver_function.
    rewrite truediv_nonzero by (apply nonzero_class; auto).
    simpl. rewrite (div_self _ Hfin). reflexivity.
  - exists 100.0%float, 45.0%float, 15.0%float, (-50.0)%float. repeat split; reflexivity.
  - exists 100.0%float, (-15.0)%float, 15.0%float, 150.0%float. repeat split; reflexivity.
Qed.

Lemma adjust_dose_for_liver_function_formula_witness :
  adjust_dose_for_liver_function 100.0 7.5 default_max_score = Return 75.0%float /\
  adjust_dose_for_liver_function 100.0 15.0 15.0 = Return 50.0%float.
Proof.
  split.
  - apply (proj1 adjust_dose_for_liver_function_formula 100.0 7.5 default_max_score
             eq_refl)%float.
  - apply (proj1 (proj2 adjust_dose_for_liver_function_formula) 100.0 15.0 eq_refl)%float.
Defined.

(** ** Repeated calls *)

Lemma check_interactions_run (l : list string) (db_file : string)
    (w : world (gmap string string)) :
  check_interactions l db_file w =
  (match files w !! db_file with
   | None => Raise (database_not_found db_file)
   | Some doc => Return (interactions_among (json_object_to_dict doc) l)
   end, w).
Proof.
  unfold check_interactions, mbind, prog_bind, json_load_file.
  destruct (files w !! db_file); reflexivity.
Qed.

(** The write of the unit tests is seen by the call that follows it: the
    state a call could change is there to be changed. *)
Lemma json_dump_file_observed :
  fst (is_within_therapeutic_range lower 10.0 "drug_a" tt default_ranges_file empty_world)
  = Raise (database_not_found default_ranges_file) /\
  fst ((json_dump_file default_ranges_file test_ranges;;
        is_within_therapeutic_range lower 10.0 "drug_a" tt default_ranges_file) empty_world)
  = Return true /\
  snd (json_dump_file default_ranges_file test_ranges empty_world) = test_ranges_world.
Proof. repeat split; vm_compute; reflexivity. Qed.

Section CallFacts.

Variable np_exp : float -> float.
Variable str_lower : string -> string.

(** No call changes the store. *)
Lemma run_store (c : call) (s : store) : snd (run np_exp str_lower c s) = s.
Proof.
  destruct s as [rw iw]. destruct c; try reflexivity; cbn [run range_files interaction_files].
  - rewrite is_within_therapeutic_range_run. reflexivity.
  - rewrite check_interactions_run. reflexivity.
Qed.

Lemma run_all_store (cs : list call) (s : store) : run_all np_exp str_lower cs s = s.
Proof.
  unfold run_all. induction cs as [|c cs IH]; [reflexivity|].
  cbn [foldl]. rewrite run_store. exact IH.
Qed.

(** The outcome of a call is decided by its arguments and by the content of
    the one file it names. *)
Lemma run_file (c : call) (s s' : store) :
  file_read c s = file_read c s' ->
  fst (run np_exp str_lower c s) = fst (run np_exp str_lower c s').
Proof.
  destruct c; try reflexivity; cbn [run file_read]; intros Hf.
  - rewrite !is_within_therapeutic_range_run. cbn [fst].
    apply (inj (fmap inl)) in Hf. rewrite Hf. reflexivity.
  - rewrite !check_interactions_run. cbn [fst].
    apply (inj (fmap inr)) in Hf. rewrite Hf. reflexivity.
Qed.

End CallFacts.

(** C7. Every operation is repeatable.  No call changes the store of files,
    whether it returns or raises, so no call leaves anything for a later call
    to observe; the outcome of a call is decided by its arguments and the
    content of the one file it names, in whatever store it runs; and so a
    call made after any sequence of calls returns what it returns when made
    first.  [numpy.exp] and [str.lower] are taken as functions. *)
Theorem operations_repeatable (np_exp : float -> float) (str_lower : string -> string) :
  (forall (c : call) (s : store), snd (run np_exp str_lower c s) = s) /\
  (forall (c : call) (s s' : store),
     file_read c s = file_read c s' ->
     fst (run np_exp str_lower c s) = fst (run np_exp str_lower c s')) /\
  (forall (cs : list call) (c : call) (s : store),
     fst (run np_exp str_lower c (run_all np_exp str_lower cs s))
     = fst (run np_exp str_lower c s)).
Proof.
  split; [|split].
  - apply run_store.
  - apply run_file.
  - intros cs c s. rewrite run_all_store. reflexivity.
Qed.

Lemma operations_repeatable_witness :
  fst (run (fun _ => 1%float) lower
         (Call_is_within_therapeutic_range 10.0 "Drug_A" unit tt default_ranges_file)
         (Store test_ranges_world empty_world))
  = fst (run (fun _ => 1%float) lower
           (Call_is_within_therapeutic_range 10.0 "Drug_A" unit tt default_ranges_file)
           (Store test_ranges_world test_interactions_world)).
Proof.
  apply (proj1 (proj2 (operations_repeatable (fun _ => 1%float) lower))
           (Call_is_within_therapeutic_range 10.0 "Drug_A" unit tt default_ranges_file)
           (Store test_ranges_world empty_world)
           (Store test_ranges_world test_interactions_world)).
  reflexivity.
Defined.

(** * Further properties of the interaction loop *)

Lemma bind_seq_lookup {A B : Type} (f : A -> list B) (l : list A) :
  seq 0 (length l) ≫= (fun j => match l !! j with Some y => f y | None => [] end)
  = l ≫= f.
Proof.
  induction l as [|y l IH]; [reflexivity|].
  cbn [length seq]. rewrite <- fmap_S_seq, !bind_cons, list_fmap_bind.
  simpl. f_equal. exact IH.
Qed.

(** The loop, by recursion on the list: the first drug against each later
    one, then the loop on the rest. *)
Lemma scan_pairs_cons {R : Type} (emit : string -> string -> string -> R) d x l :
  scan_pairs emit d (x :: l) = hits_with emit d x l ++ scan_pairs emit d l.
Proof.
  rewrite !scan_pairs_bind. cbn [length seq].
  rewrite bind_cons. f_equal.
  - replace (S (length l) - (0 + 1)) with (length l) by lia.
    change (0 + 1) with 1. rewrite <- fmap_S_seq, list_fmap_bind.
    unfold hits_with.
    rewrite <- (bind_seq_lookup
                  (fun y => match d !! pair_key x y with
                            | Some text => [emit x y text]
                            | None => []
                            end) l).
    apply list_bind_ext; [|reflexivity].
    intros j. unfold hit_at. simpl. destruct (l !! j); reflexivity.
  - rewrite <- fmap_S_seq, list_fmap_bind. apply list_bind_ext; [|reflexivity].
    intros i. simpl.
    rewrite <- fmap_S_seq, list_fmap_bind. apply list_bind_ext; [|reflexivity].
    intros j. reflexivity.
Qed.

Lemma scan_pairs_ext {R : Type} (emit : string -> string -> string -> R) d d' l :
  (forall a b, d !! pair_key a b = d' !! pair_key a b) ->
  scan_pairs emit d l = scan_pairs emit d' l.
Proof.
  intros Hd. rewrite !scan_pairs_bind. apply list_bind_ext; [|reflexivity].
  intros i. apply list_bind_ext; [|reflexivity].
  intros j. unfold hit_at.
  destruct (l !! i) as [a|]; [destruct (l !! j) as [b|] |]; try reflexivity.
  rewrite Hd. reflexivity.
Qed.

Lemma hits_with_length {R : Type} (emit : string -> string -> string -> R) d x l :
  length (hits_with emit d x l) <= length l.
Proof.
  unfold hits_with. induction l as [|y l IH]; [reflexivity|].
  rewrite bind_cons, length_app. destruct (d !! pair_key x y); simpl; lia.
Qed.

Lemma hits_with_length_full {R : Type} (emit : string -> string -> string -> R) d x l :
  (forall j y, l !! j = Some y -> is_Some (d !! pair_key x y)) ->
  length (hits_with emit d x l) = length l.
Proof.
  unfold hits_with. induction l as [|y l IH]; intros Hall; [reflexivity|].
  rewrite bind_cons, length_app, IH.
  - destruct (Hall 0 y eq_refl) as [t ->]. reflexivity.
  - intros j z Hz. apply (Hall (S j)). exact Hz.
Qed.

Lemma scan_pairs_length {R : Type} (emit : string -> string -> string -> R) d l :
  2 * length (scan_pairs emit d l) <= length l * (length l - 1).
Proof.
  induction l as [|x l IH]; [simpl; lia|].
  rewrite scan_pairs_cons, length_app.
  pose proof (hits_with_length emit d x l). simpl length.
  replace (S (length l) - 1) with (length l) by lia. nia.
Qed.

Lemma scan_pairs_length_full {R : Type} (emit : string -> string -> string -> R) d l :
  (forall i j a b, i < j -> l !! i = Some a -> l !! j = Some b ->
                   is_Some (d !! pair_key a b)) ->
  2 * length (scan_pairs emit d l) = length l * (length l - 1).
Proof.
  induction l as [|x l IH]; intros Hall; [reflexivity|].
  rewrite scan_pairs_cons, length_app, hits_with_length_full.
  - assert (2 * length (scan_pairs emit d l) = length l * (length l - 1)) as Hl.
    { apply IH. intros i j a b Hij Hi Hj.
      apply (Hall (S i) (S j)); [lia | exact Hi | exact Hj]. }
    simpl length. replace (S (length l) - 1) with (length l) by lia. nia.
  - intros j y Hy. apply (Hall 0 (S j)); [lia | reflexivity | exact Hy].
Qed.

Lemma hit_texts_hits d l : hit_texts d l = snd <$> interaction_hits d l.
Proof.
  unfold hit_texts, interaction_hits.
  rewrite <- (scan_pairs_fmap (fun a b text => (a, b, text)) snd). reflexivity.
Qed.

Lemma hit_texts_messages_length d l :
  length (interactions_among d l) = length (hit_texts d l).
Proof.
  rewrite hit_texts_hits, interactions_among_hits, !length_fmap. reflexivity.
Qed.

Lemma hit_texts_perm d l l' : l ≡ₚ l' -> hit_texts d l ≡ₚ hit_texts d l'.
Proof.
  unfold hit_texts. induction 1 as [|x l l' Hp IH|x y l|l1 l2 l3 _ IH1 _ IH2].
  - reflexivity.
  - rewrite !scan_pairs_cons. apply Permutation_app; [|exact IH].
    unfold hits_with. rewrite Hp. reflexivity.
  - rewrite !scan_pairs_cons. unfold hits_with. rewrite !bind_cons.
    rewrite (pair_key_comm y x).
    rewrite <- !app_assoc. apply Permutation_app_head.
    rewrite !app_assoc. apply Permutation_app_tail, Permutation_app_comm.
  - etransitivity; eassumption.
Qed.

Lemma pair_key_formable (a b : string) : formable_key (pair_key a b) = true.
Proof.
  unfold pair_key. rewrite sorted_pair.
  destruct (String.ltb (lower b) (lower a)) eqn:Hlt; simpl;
    rewrite !lower_not_upper; simpl.
  - unfold String.ltb in *. rewrite String.compare_antisym.
    destruct (String.compare (lower b) (lower a)); try discriminate. reflexivity.
  - rewrite Hlt. reflexivity.
Qed.



Lemma hits_with_sublist {R : Type} (emit : string -> string -> string -> R) d d' x l :
  d ⊆ d' -> hits_with emit d x l `sublist_of` hits_with emit d' x l.
Proof.
  intros Hsub. unfold hits_with. induction l as [|y l IH]; [reflexivity|].
  rewrite !bind_cons. apply sublist_app; [|exact IH].
  destruct (d !! pair_key x y) as [t|] eqn:Hd.
  - rewrite (lookup_weaken _ _ _ _ Hd Hsub). reflexivity.
  - apply sublist_nil_l.
Qed.

(** X1. Whatever the list of drugs, [check_interactions] raises the
    database-not-found error when no file is at the path and otherwise
    returns the empty list, the world unchanged: through a file, no
    interaction is ever reported. *)
Theorem check_interactions_outcome (l : list string) (db_file : string)
    (w : world (gmap string string)) :
  check_interactions l db_file w =
  match files w !! db_file with
  | Some _ => (Return [], w)
  | None => (Raise (database_not_found db_file), w)
  end.
Proof.
  destruct (files w !! db_file) as [doc|] eqn:Hf.
  - apply (check_interactions_loaded _ _ _ _ Hf).
  - unfold check_interactions, mbind, prog_bind.
    rewrite (json_load_file_missing _ _ Hf). reflexivity.
Qed.


(** X3. The order of the result: the messages of the first drug with each
    later drug, in list order, come first, followed by the result for the
    rest of the list; the empty list gives no message. *)
Theorem interactions_among_cons (d : gmap key string) (x : string) (l : list string) :
  interactions_among d [] = [] /\
  interactions_among d (x :: l)
  = hits_with interaction_message d x l ++ interactions_among d l.
Proof. split; [reflexivity | apply scan_pairs_cons]. Qed.

(** X4. A list of [n] drugs gives at most [n (n - 1) / 2] messages, one for
    each pair of positions, and exactly that many when the key of every pair
    of positions is in the dictionary. *)
Theorem interactions_among_count (d : gmap key string) (l : list string) :
  2 * length (interactions_among d l) <= length l * (length l - 1) /\
  ((forall i j a b, i < j -> l !! i = Some a -> l !! j = Some b ->
                    is_Some (d !! pair_key a b)) ->
   2 * length (interactions_among d l) = length l * (length l - 1)).
Proof.
  split; [apply scan_pairs_length | apply scan_pairs_length_full].
Qed.

Lemma interactions_among_count_witness :
  2 * length (interactions_among tuple_table ["Drug_B"; "drug_a"]) = 2 * (2 - 1).
Proof.
  apply (proj2 (interactions_among_count tuple_table ["Drug_B"; "drug_a"])).
  intros i j a b Hij Hi Hj.
  destruct i as [|[|i]]; destruct j as [|[|j]]; try lia; try discriminate.
  injection Hi as <-. injection Hj as <-. vm_compute. eauto.
Defined.

(** X5. Permuting the list of drugs permutes the interaction texts that are
    reported: the same texts, each as many times, and so the same number of
    messages. *)
Theorem interaction_texts_permutation (d : gmap key string) (l l' : list string) :
  l ≡ₚ l' ->
  snd <$> interaction_hits d l ≡ₚ snd <$> interaction_hits d l' /\
  length (interactions_among d l) = length (interactions_among d l').
Proof.
  intros Hp. pose proof (hit_texts_perm d l l' Hp) as Ht. split.
  - rewrite <- !hit_texts_hits. exact Ht.
  - rewrite !hit_texts_messages_length. apply Permutation_length, Ht.
Qed.

Lemma interaction_texts_permutation_witness :
  length (interactions_among tuple_table ["drug_a"; "Drug_B"; "drug_a"])
  = length (interactions_among tuple_table ["Drug_B"; "drug_a"; "drug_a"]).
Proof.
  apply (proj2 (interaction_texts_permutation tuple_table
                  ["drug_a"; "Drug_B"; "drug_a"] ["Drug_B"; "drug_a"; "drug_a"]
                  (perm_swap "Drug_B" "drug_a" ["drug_a"]))).
Defined.

(** X6. An entry of the dictionary whose key is not a tuple of two lowercase
    strings in sorted order is never matched: deleting it, or adding one,
    changes no result. *)
Theorem unformable_key_ignored (d : gmap key string) (k : key) (text : string)
    (l : list string) :
  formable_key k = false ->
  interactions_among (delete k d) l = interactions_among d l /\
  interactions_among (<[k := text]> d) l = interactions_among d l.
Proof.
  intros Hk.
  assert (Hne : forall a b, k <> pair_key a b).
  { intros a b ->. rewrite pair_key_formable in Hk. discriminate. }
  split; apply scan_pairs_ext; intros a b.
  - apply lookup_delete_ne, Hne.
  - apply lookup_insert_ne, Hne.
Qed.

Lemma unformable_key_ignored_witness :
  interactions_among
    (<[KTuple ["drug_b"; "drug_a"] := "Unsorted key"]> tuple_table) ["drug_b"; "drug_a"]
  = ["Interaction between drug_b and drug_a: Increased risk of toxicity"].
Proof.
  rewrite (proj2 (unformable_key_ignored tuple_table (KTuple ["drug_b"; "drug_a"])
                    "Unsorted key" ["drug_b"; "drug_a"] eq_refl)).
  vm_compute. reflexivity.
Defined.



(** X8. A larger dictionary reports more: the result on a dictionary is a
    sublist, order kept, of the result on any dictionary that extends it. *)
Theorem interactions_among_table_mono (d d' : gmap key string) (l : list string) :
  d ⊆ d' -> interactions_among d l `sublist_of` interactions_among d' l.
Proof.
  intros Hsub. unfold interactions_among. induction l as [|x l IH]; [reflexivity|].
  rewrite !scan_pairs_cons. apply sublist_app; [|exact IH].
  apply hits_with_sublist, Hsub.
Qed.

Lemma interactions_among_table_mono_witness :
  interactions_among {[ KTuple ["drug_a"; "drug_a"] := "Duplicate therapy" ]}
    ["drug_a"; "drug_b"; "drug_a"]
  `sublist_of` interactions_among tuple_table ["drug_a"; "drug_b"; "drug_a"].
Proof.
  apply (interactions_among_table_mono
           {[ KTuple ["drug_a"; "drug_a"] := "Duplicate therapy" ]} tuple_table).
  apply insert_subseteq. vm_compute. reflexivity.
Defined.

(** * Further properties of the floating-point operations *)

Lemma digits2_pos_double (p m : positive) :
  (Z.pos (digits2_pos (p~0 * m)) = Z.pos (digits2_pos (p * m)) + 1)%Z.
Proof. simpl. lia. Qed.

(** Rounding the product of a valid mantissa by the mantissa of one gives
    the mantissa back. *)
Lemma binary_round_aux_times_one (s : bool) (m : positive) (e : Z) :
  bounded prec emax m e = true ->
  binary_round_aux prec emax s (Z.pos (m * 4503599627370496)) (e + -52) loc_Exact
  = S754_finite s m e.
Proof.
  unfold bounded, canonical_mantissa. intros Hb.
  apply andb_prop in Hb as [Hc He]. apply Z.eqb_eq in Hc.
  rewrite Pos.mul_comm.
  unfold binary_round_aux.
  assert (Hs1 : shr_fexp prec emax (Z.pos (4503599627370496 * m)) (e + -52) loc_Exact
                = ({| shr_m := Z.pos m; shr_r := false; shr_s := false |}, e)).
  { unfold shr_fexp.
    assert (Hd : (Zdigits2 (Z.pos (4503599627370496 * m)) + (e + -52)
                  = Z.pos (digits2_pos m) + e)%Z).
    { cbn [Zdigits2]. rewrite !digits2_pos_double, Pos.mul_1_l. lia. }
    rewrite Hd, Hc.
    replace (e - (e + -52))%Z with 52%Z by lia.
    unfold shr. replace (e + -52 + 52)%Z with e by lia. reflexivity. }
  rewrite Hs1. cbn [shr_m loc_of_shr_record round_nearest_even].
  assert (Hs2 : shr_fexp prec emax (Z.pos m) e loc_Exact
                = ({| shr_m := Z.pos m; shr_r := false; shr_s := false |}, e)).
  { unfold shr_fexp. cbn [Zdigits2]. rewrite Hc, Z.sub_diag. reflexivity. }
  rewrite Hs2. cbn [shr_m]. rewrite He. reflexivity.
Qed.

(** Multiplying by one changes no float. *)
Lemma mul_one (x : float) : (x * 1)%float = x.
Proof.
  apply Prim2SF_inj. rewrite mul_spec.
  pose proof (Prim2SF_valid x) as Hv.
  change (Prim2SF 1) with (S754_finite false 4503599627370496 (-52)).
  destruct (Prim2SF x) as [s|s| |s m e]; simpl.
  - rewrite xorb_false_r. reflexivity.
  - rewrite xorb_false_r. reflexivity.
  - reflexivity.
  - rewrite xorb_false_r. apply binary_round_aux_times_one. exact Hv.
Qed.

Lemma class_nan (x : float) : class_of x = FNan <-> x = nan.
Proof.
  split.
  - unfold class_of. intros H. apply Prim2SF_inj.
    destruct (Prim2SF x); try discriminate. reflexivity.
  - intros ->. reflexivity.
Qed.

Lemma opp_class (x : float) : class_of (- x)%float = class_of x.
Proof.
  unfold class_of. rewrite opp_spec. destruct (Prim2SF x); reflexivity.
Qed.

Lemma div_nan_r (x : float) : (x / nan)%float = nan.
Proof.
  apply Prim2SF_inj. rewrite div_spec.
  change (Prim2SF nan) with S754_nan. destruct (Prim2SF x); reflexivity.
Qed.

Lemma div_nan_l (y : float) : (nan / y)%float = nan.
Proof.
  apply Prim2SF_inj. rewrite div_spec.
  change (Prim2SF nan) with S754_nan. reflexivity.
Qed.

Lemma div_by_infinity_class (x y : float) :
  class_of x = FZero \/ class_of x = FFinite -> class_of y = FInfinite ->
  class_of (x / y)%float = FZero.
Proof.
  unfold class_of. rewrite div_spec. intros Hx Hy.
  destruct (Prim2SF y) as [sy|sy| |sy my ey]; try discriminate.
  destruct (Prim2SF x) as [sx|sx| |sx mx ex]; destruct Hx; try discriminate; reflexivity.
Qed.

Lemma div_infinity_class (x y : float) :
  class_of x = FInfinite -> class_of y = FZero \/ class_of y = FFinite ->
  class_of (x / y)%float = FInfinite.
Proof.
  unfold class_of. rewrite div_spec. intros Hx Hy.
  destruct (Prim2SF x) as [sx|sx| |sx mx ex]; try discriminate.
  destruct (Prim2SF y) as [sy|sy| |sy my ey]; destruct Hy; try discriminate; reflexivity.
Qed.

Lemma mul_zero_class (x y : float) :
  class_of x = FZero \/ class_of x = FFinite ->
  class_of y = FZero \/ class_of y = FFinite ->
  class_of x = FZero \/ class_of y = FZero ->
  class_of (x * y)%float = FZero.
Proof.
  unfold class_of. rewrite mul_spec. intros Hx Hy Hz.
  destruct (Prim2SF x) as [sx|sx| |sx mx ex]; destruct Hx; try discriminate;
    destruct (Prim2SF y) as [sy|sy| |sy my ey]; destruct Hy; try discriminate;
    destruct Hz; try discriminate; reflexivity.
Qed.

Lemma sub_zero_r (x z : float) :
  class_of x = FFinite -> class_of z = FZero -> (x - z)%float = x.
Proof.
  unfold class_of. intros Hx Hz. apply Prim2SF_inj. rewrite sub_spec.
  destruct (Prim2SF x) as [sx|sx| |sx mx ex]; try discriminate.
  destruct (Prim2SF z) as [sz|sz| |sz mz ez]; try discriminate. reflexivity.
Qed.

(** * Further properties of the range checker *)

(** X9. A concentration or a stored bound that is not a number is never
    within range: whatever the two bounds, integers or floats, the function
    returns false. *)
Theorem is_within_therapeutic_range_nan (str_lower : string -> string) {P : Type}
    (c : float) (name : string) (pd : P) (db_file : string) (w : world json)
    (o : gmap string json) (low upper : json) (a b : number) :
  files w !! db_file = Some (JObject o) ->
  o !! str_lower name = Some (JList [low; upper]) ->
  as_number low = Some a -> as_number upper = Some b ->
  class_of c = FNan \/ number_exact a = ENan \/ number_exact b = ENan ->
  fst (is_within_therapeutic_range str_lower c name pd db_file w) = Return false.
Proof.
  intros Hf Ho Ha Hb Hn.
  rewrite is_within_therapeutic_range_outcome, Hf, (range_outcome_pair _ _ _ _ _ _ Ho).
  rewrite (chained_le_numbers _ _ _ _ _ Ha Hb). f_equal.
  rewrite float_exact_nan in Hn. destruct Hn as [Hn|[Hn|Hn]].
  - rewrite (exact_le_nan (number_exact a)) by auto. reflexivity.
  - rewrite (exact_le_nan (number_exact a)) by auto. reflexivity.
  - rewrite (exact_le_nan _ (number_exact b)), andb_false_r by auto. reflexivity.
Qed.

Lemma is_within_therapeutic_range_nan_witness :
  fst (is_within_therapeutic_range lower nan "drug_a" tt default_ranges_file test_ranges_world)
  = Return false /\
  fst (is_within_therapeutic_range lower 10.0 "drug_a" tt default_ranges_file nan_range_world)
  = Return false.
Proof.
  split.
  - apply (is_within_therapeutic_range_nan lower nan "drug_a" tt default_ranges_file
             test_ranges_world {[ "drug_a" := JList [JFloat 5.0; JFloat 15.0] ]}
             (JFloat 5.0) (JFloat 15.0) (NFloat 5.0) (NFloat 15.0)
             eq_refl eq_refl eq_refl eq_refl (or_introl eq_refl)).
  - apply (is_within_therapeutic_range_nan lower 10.0 "drug_a" tt default_ranges_file
             nan_range_world {[ "drug_a" := JList [JFloat 5.0; JFloat nan] ]}
             (JFloat 5.0) (JFloat nan) (NFloat 5.0) (NFloat nan)
             eq_refl eq_refl eq_refl eq_refl (or_intror (or_intror eq_refl))).
Defined.

(** X10. The bounds of a stored range are not checked against each other:
    when the function returns true the lower bound is at most the upper one,
    so a range stored with its upper bound below its lower bound makes every
    concentration out of range. *)
Theorem is_within_therapeutic_range_inverted (str_lower : string -> string) {P : Type}
    (c : float) (name : string) (pd : P) (db_file : string) (w : world json)
    (o : gmap string json) (low upper : json) (a b : number) :
  files w !! db_file = Some (JObject o) ->
  o !! str_lower name = Some (JList [low; upper]) ->
  as_number low = Some a -> as_number upper = Some b ->
  (fst (is_within_therapeutic_range str_lower c name pd db_file w) = Return true ->
   number_le a b = true) /\
  (number_lt b a = true ->
   fst (is_within_therapeutic_range str_lower c name pd db_file w) = Return false).
Proof.
  intros Hf Ho Ha Hb.
  rewrite is_within_therapeutic_range_outcome, Hf, (range_outcome_pair _ _ _ _ _ _ Ho).
  rewrite (chained_le_numbers _ _ _ _ _ Ha Hb), number_le_exact, number_lt_exact. split.
  - intros Ht. injection Ht as Ht. apply andb_prop in Ht as [H1 H2].
    exact (exact_le_trans _ _ _ H1 H2).
  - intros Hinv. f_equal.
    destruct (exact_le (number_exact a) (float_exact c)) eqn:H1; [|reflexivity].
    destruct (exact_le (float_exact c) (number_exact b)) eqn:H2; [|reflexivity].
    rewrite (exact_le_lt_chain _ _ _ H1 H2) in Hinv. discriminate.
Qed.

Lemma is_within_therapeutic_range_inverted_witness :
  fst (is_within_therapeutic_range lower 10.0 "drug_a" tt default_ranges_file
         inverted_range_world) = Return false /\
  number_le (NFloat 5.0) (NFloat 15.0) = true.
Proof.
  split.
  - apply (proj2 (is_within_therapeutic_range_inverted lower 10.0 "drug_a" tt
                    default_ranges_file inverted_range_world
                    {[ "drug_a" := JList [JFloat 15.0; JFloat 5.0] ]}
                    (JFloat 15.0) (JFloat 5.0) (NFloat 15.0) (NFloat 5.0)
                    eq_refl eq_refl eq_refl eq_refl) eq_refl).
  - apply (proj1 (is_within_therapeutic_range_inverted lower 10.0 "drug_a" tt
                    default_ranges_file test_ranges_world
                    {[ "drug_a" := JList [JFloat 5.0; JFloat 15.0] ]}
                    (JFloat 5.0) (JFloat 15.0) (NFloat 5.0) (NFloat 15.0)
                    eq_refl eq_refl eq_refl eq_refl)).
    vm_compute. reflexivity.
Defined.

(** X11. The answer depends on one entry of one table: two worlds whose
    tables at the path agree on the entry of the lowercased name give the
    same outcome, and so adding, changing or deleting any other entry of the
    table leaves the outcome as it was. *)
Theorem is_within_therapeutic_range_frame (str_lower : string -> string) {P : Type}
    (c : float) (name : string) (pd : P) (db_file : string) (w : world json)
    (o : gmap string json) :
  files w !! db_file = Some (JObject o) ->
  (forall (w' : world json) (o' : gmap string json),
     files w' !! db_file = Some (JObject o') ->
     o' !! str_lower name = o !! str_lower name ->
     fst (is_within_therapeutic_range str_lower c name pd db_file w')
     = fst (is_within_therapeutic_range str_lower c name pd db_file w)) /\
  (forall (other_name : string) (v : json),
     other_name <> str_lower name ->
     fst (is_within_therapeutic_range str_lower c name pd db_file
            (World (<[db_file := JObject (<[other_name := v]> o)]> (files w))))
     = fst (is_within_therapeutic_range str_lower c name pd db_file w)) /\
  (forall other_name : string,
     other_name <> str_lower name ->
     fst (is_within_therapeutic_range str_lower c name pd db_file
            (World (<[db_file := JObject (delete other_name o)]> (files w))))
     = fst (is_within_therapeutic_range str_lower c name pd db_file w)).
Proof.
  intros Hf.
  assert (Hagree : forall (w' : world json) (o' : gmap string json),
            files w' !! db_file = Some (JObject o') ->
            o' !! str_lower name = o !! str_lower name ->
            fst (is_within_therapeutic_range str_lower c name pd db_file w')
            = fst (is_within_therapeutic_range str_lower c name pd db_file w)).
  { intros w' o' Hf' Ho. rewrite !is_within_therapeutic_range_outcome, Hf, Hf'.
    unfold range_outcome. simpl. rewrite Ho. reflexivity. }
  split; [exact Hagree|]. split.
  - intros other_name v Hne. apply (Hagree _ (<[other_name := v]> o)).
    + apply lookup_insert_eq.
    + apply lookup_insert_ne, Hne.
  - intros other_name Hne. apply (Hagree _ (delete other_name o)).
    + apply lookup_insert_eq.
    + apply lookup_delete_ne, Hne.
Qed.

Lemma is_within_therapeutic_range_frame_witness :
  fst (is_within_therapeutic_range lower 10.0 "Drug_A" tt default_ranges_file
         (World (<[default_ranges_file :=
                     JObject (<["drug_b" := JNull]>
                                {[ "drug_a" := JList [JFloat 5.0; JFloat 15.0] ]})]>
                   (files test_ranges_world))))
  = Return true.
Proof.
  rewrite (proj1 (proj2 (is_within_therapeutic_range_frame lower 10.0 "Drug_A" tt
                           default_ranges_file test_ranges_world
                           {[ "drug_a" := JList [JFloat 5.0; JFloat 15.0] ]} eq_refl))
             "drug_b" JNull).
  - vm_compute. reflexivity.
  - discriminate.
Defined.

(** X18. On a document of any shape the unknown-drug error is raised
    exactly when the document is an object and the lowercased name is not one
    of its keys or is a key whose value is [null]: an entry that is [null]
    is reported as a drug that is not in the database, and no other
    malformed entry is. *)
Theorem unknown_drug_error_iff (str_lower : string -> string) {P : Type}
    (c : float) (name : string) (pd : P) (db_file : string) (w : world json) :
  fst (is_within_therapeutic_range str_lower c name pd db_file w)
  = Raise (range_not_found name)
  <-> exists o, files w !! db_file = Some (JObject o) /\
                (o !! str_lower name = None \/ o !! str_lower name = Some JNull).
Proof.
  rewrite is_within_therapeutic_range_outcome. split.
  - destruct (files w !! db_file) as [doc|]; [|discriminate].
    destruct doc as [| | | | | |o]; try discriminate.
    intros Hr. exists o. split; [reflexivity|].
    unfold range_outcome in Hr. simpl in Hr.
    destruct (o !! str_lower name) as [v|]; [|left; reflexivity].
    right. f_equal. simpl in Hr.
    destruct v; try reflexivity; exfalso;
      match type of Hr with
      | context [unpack ?v] => destruct (unpack v) as [[lo hi]|e] eqn:Hu
      end; simpl in Hr;
      try (apply chained_le_raises in Hr as [msg Hmsg]; discriminate Hmsg);
      injection Hr as ->; apply (unpack_raises _ _ name) in Hu as [Hne _];
      apply Hne; reflexivity.
  - intros (o & -> & [Hv|Hv]); unfold range_outcome; simpl; rewrite Hv; reflexivity.
Qed.

(** * Further properties of the formulas *)

(** X12. A patient whose creatinine clearance equals the standard one, a
    finite nonzero number, gets the standard dose back, bit for bit. *)
Theorem adjust_dose_for_kidney_function_identity (dose standard : float) :
  class_of standard = FFinite ->
  adjust_dose_for_kidney_function dose standard standard = Return dose.
Proof.
  intros Hs. unfold adjust_dose_for_kidney_function.
  rewrite truediv_nonzero by (apply nonzero_class; auto).
  simpl. rewrite (div_self _ Hs), mul_one. reflexivity.
Qed.

Lemma adjust_dose_for_kidney_function_identity_witness :
  adjust_dose_for_kidney_function 100.0 default_standard_creatinine_clearance
    default_standard_creatinine_clearance = Return 100.0%float.
Proof.
  apply (adjust_dose_for_kidney_function_identity 100.0
           default_standard_creatinine_clearance eq_refl)%float.
Defined.

(** X13. There is no floor: a zero creatinine clearance, against a nonzero
    standard, turns every finite dose into a zero dose. *)
Theorem adjust_dose_for_kidney_function_zero_clearance (dose clcr standard : float) :
  class_of clcr = FZero ->
  class_of standard = FFinite \/ class_of standard = FInfinite ->
  class_of dose = FZero \/ class_of dose = FFinite ->
  exists r, adjust_dose_for_kidney_function dose clcr standard = Return r /\
            class_of r = FZero.
Proof.
  intros Hc Hs Hd. unfold adjust_dose_for_kidney_function.
  rewrite truediv_nonzero by (apply nonzero_class; auto).
  simpl. eexists. split; [reflexivity|].
  apply mul_zero_class; auto using div_zero_class.
Qed.

Lemma adjust_dose_for_kidney_function_zero_clearance_witness :
  exists r, adjust_dose_for_kidney_function 100.0 0 100.0 = Return r /\ class_of r = FZero.
Proof.
  apply (adjust_dose_for_kidney_function_zero_clearance 100.0 0 100.0)%float.
  - reflexivity.
  - left. reflexivity.
  - right. reflexivity.
Defined.

(** X14. A liver function score of zero, of either sign, against a nonzero
    maximum leaves the dose unchanged, bit for bit. *)
Theorem adjust_dose_for_liver_function_zero_score (dose score max_score : float) :
  class_of score = FZero ->
  class_of max_score = FFinite \/ class_of max_score = FInfinite ->
  adjust_dose_for_liver_function dose score max_score = Return dose.
Proof.
  intros Hs Hm. unfold adjust_dose_for_liver_function.
  rewrite truediv_nonzero by (apply nonzero_class; auto).
  simpl. rewrite sub_zero_r, mul_one; [reflexivity | reflexivity |].
  apply mul_zero_class; auto using div_zero_class.
Qed.

Lemma adjust_dose_for_liver_function_zero_score_witness :
  adjust_dose_for_liver_function 100.0 0 default_max_score = Return 100.0%float /\
  adjust_dose_for_liver_function 100.0 (-0) default_max_score = Return 100.0%float.
Proof.
  split.
  - apply (adjust_dose_for_liver_function_zero_score 100.0 0 default_max_score
             eq_refl (or_introl eq_refl))%float.
  - apply (adjust_dose_for_liver_function_zero_score 100.0 (-0) default_max_score
             eq_refl (or_introl eq_refl))%float.
Defined.

(** X15. [half_life] at the special values: a volume that is not a number,
    or a clearance that is not a number over a nonzero volume, gives [nan]
    and raises nothing; an infinite volume under a finite clearance raises
    the division error; an infinite clearance over a finite nonzero volume
    gives a zero half-life. *)
Theorem half_life_special_values (CL Vd : float) :
  (class_of Vd = FNan -> half_life CL Vd = Return nan) /\
  (class_of CL = FNan -> (Vd =? 0)%float = false -> half_life CL Vd = Return nan) /\
  (class_of Vd = FInfinite -> class_of CL = FZero \/ class_of CL = FFinite ->
     half_life CL Vd = Raise ZeroDivisionError) /\
  (class_of CL = FInfinite -> class_of Vd = FFinite ->
     exists t, half_life CL Vd = Return t /\ class_of t = FZero).
Proof.
  split; [|split; [|split]].
  - intros Hv. apply class_nan in Hv. subst Vd.
    rewrite half_life_run, div_nan_r, div_nan_r. reflexivity.
  - intros Hc Hz. apply class_nan in Hc. subst CL.
    rewrite half_life_run, Hz, div_nan_l, div_nan_r. reflexivity.
  - intros Hv Hc. rewrite half_life_run, (nonzero_class Vd) by auto.
    assert ((CL / Vd =? 0)%float = true) as ->; [|reflexivity].
    apply is_zero_class, div_by_infinity_class; assumption.
  - intros Hc Hv. rewrite half_life_run, (nonzero_class Vd) by auto.
    pose proof (div_infinity_class CL Vd Hc (or_intror Hv)) as Hq.
    rewrite (nonzero_class (CL / Vd)%float) by auto.
    eexists. split; [reflexivity|].
    apply div_by_infinity_class; [right; reflexivity | exact Hq].
Qed.

Lemma half_life_special_values_witness :
  half_life 5.0 nan = Return nan /\
  half_life nan 50.0 = Return nan /\
  half_life 5.0 infinity = Raise ZeroDivisionError /\
  (exists t, half_life infinity 50.0 = Return t /\ class_of t = FZero).
Proof.
  split; [|split; [|split]].
  - apply (proj1 (half_life_special_values 5.0 nan) eq_refl)%float.
  - apply (proj1 (proj2 (half_life_special_values nan 50.0)) eq_refl eq_refl)%float.
  - apply (proj1 (proj2 (proj2 (half_life_special_values 5.0 infinity))) eq_refl
             (or_intror eq_refl))%float.
  - apply (proj2 (proj2 (proj2 (half_life_special_values infinity 50.0))) eq_refl
             eq_refl)%float.
Defined.

(** X16. [initial_concentration] at the edges: a zero volume, of either
    sign, raises the division error; a zero dose in a nonzero volume, and a
    finite dose in an infinite volume, give a zero concentration; a dose
    equal to a finite nonzero volume gives exactly one. *)
Theorem initial_concentration_edges (D Vd : float) :
  ((Vd =? 0)%float = true -> initial_concentration D Vd = Raise ZeroDivisionError) /\
  (class_of D = FZero -> class_of Vd = FFinite \/ class_of Vd = FInfinite ->
     exists c, initial_concentration D Vd = Return c /\ class_of c = FZero) /\
  (class_of D = FFinite -> class_of Vd = FInfinite ->
     exists c, initial_concentration D Vd = Return c /\ class_of c = FZero) /\
  (class_of Vd = FFinite -> initial_concentration Vd Vd = Return 1%float).
Proof.
  unfold initial_concentration. split; [|split; [|split]].
  - apply truediv_zero.
  - intros Hd Hv. rewrite truediv_nonzero by (apply nonzero_class; auto).
    eexists. split; [reflexivity|]. apply div_zero_class; assumption.
  - intros Hd Hv. rewrite truediv_nonzero by (apply nonzero_class; auto).
    eexists. split; [reflexivity|]. apply div_by_infinity_class; auto.
  - intros Hv. rewrite truediv_nonzero by (apply nonzero_class; auto).
    rewrite (div_self _ Hv). reflexivity.
Qed.

Lemma initial_concentration_edges_witness :
  initial_concentration 500.0 (-0) = Raise ZeroDivisionError /\
  (exists c, initial_concentration 0 50.0 = Return c /\ class_of c = FZero) /\
  (exists c, initial_concentration 500.0 infinity = Return c /\ class_of c = FZero) /\
  initial_concentration 50.0 50.0 = Return 1%float.
Proof.
  split; [|split; [|split]].
  - apply (proj1 (initial_concentration_edges 500.0 (-0)) eq_refl)%float.
  - apply (proj1 (proj2 (initial_concentration_edges 0 50.0)) eq_refl
             (or_introl eq_refl))%float.
  - apply (proj1 (proj2 (proj2 (initial_concentration_edges 500.0 infinity))) eq_refl
             eq_refl)%float.
  - apply (proj2 (proj2 (proj2 (initial_concentration_edges 50.0 50.0))) eq_refl)%float.
Defined.

(** X17. At time zero the plasma concentration is the initial one, bit for
    bit, for every finite elimination rate constant, as soon as the
    exponential of a zero is one. *)
Theorem plasma_concentration_at_time_zero (np_exp : float -> float) (C_0 k_e t : float) :
  (forall z, class_of z = FZero -> np_exp z = 1%float) ->
  class_of k_e = FZero \/ class_of k_e = FFinite ->
  class_of t = FZero ->
  plasma_concentration_iv_bolus_single np_exp C_0 k_e t = Return C_0.
Proof.
  intros Hexp Hk Ht. unfold plasma_concentration_iv_bolus_single.
  rewrite Hexp, mul_one; [reflexivity|].
  apply mul_zero_class; rewrite ?opp_class; auto.
Qed.

Lemma plasma_concentration_at_time_zero_witness :
  plasma_concentration_iv_bolus_single (fun _ => 1%float) 10.0 0.1 0 = Return 10.0%float.
Proof.
  apply (plasma_concentration_at_time_zero (fun _ => 1%float) 10.0 0.1 0)%float.
  - intros z _. reflexivity.
  - right. reflexivity.
  - reflexivity.
Defined.
